(** * Retail footfall analyzer: a shallow embedding of
      [retail-footfall-analyzer.py] and the properties of its agent loop.

    The development follows the class [RetailFootfallAnalyzer]:
    - [Text]    : the part of Python's [str] the mock tool uses
                  ([str.lower], the [in] test on strings);
    - [Json]    : the values the tool serialises, [json.dumps] and
                  [json.loads];
    - [Messages]: the langchain message classes the code inspects;
    - [Py]      : exceptions, the process environment, list objects on a
                  heap, and the state-and-error monad the methods run in;
    - [Analyzer]: the methods of the class, in source order;
    - [Conversation], [Samples]: the vocabulary of the statements and
                  the objects they are run on.
    The facts follow, one section per method.

    Conventions.  Text is a sequence of code points below 256, so that
    [str.lower] is exact on it.  [print] writes to standard output only
    and is left out.  [Exception] stands for the instances of Python's
    [Exception] class, which is what [except Exception] catches.  The
    language model, the [ChatOpenAI] constructor and langgraph's
    compiled graph are library objects: they are parameters here. *)

From stdpp Require Import gmap strings list.
From Stdlib Require Import ZArith Ascii String DecimalString.

Set Warnings "-register-all".
Local Open Scope string_scope.

(* ===================================================================== *)
(** ** Text: [str.lower] and substring search                             *)
(* ===================================================================== *)

Module Text.

(** Code points with an upper-case form below 256: A-Z, and the Latin-1
    capitals U+00C0..U+00DE without the multiplication sign U+00D7.
    Their lower-case form is 32 further on. *)
Definition is_upper (n : nat) : bool :=
  (((65 <=? n) && (n <=? 90))
   || ((192 <=? n) && (n <=? 222) && negb (n =? 215)))%nat.

Definition lower_char (c : ascii) : ascii :=
  let n := nat_of_ascii c in
  if is_upper n then ascii_of_nat (n + 32) else c.

(** [s.lower()] *)
Fixpoint lower (s : string) : string :=
  match s with
  | EmptyString => EmptyString
  | String c s' => String (lower_char c) (lower s')
  end.

(** [needle in hay] on strings: [needle] occurs at some offset of [hay]. *)
Fixpoint str_in (needle hay : string) : bool :=
  String.prefix needle hay ||
  match hay with
  | EmptyString => false
  | String _ hay' => str_in needle hay'
  end.

(** Two texts are equal up to case when they have the same lower-case form. *)
Definition ci_eq (s t : string) : Prop := lower s = lower t.

(** [q] contains [needle] as a substring, case-insensitively: some
    contiguous part of [q] equals [needle] up to case. *)
Definition ci_contains (needle q : string) : Prop :=
  exists pre mid post, q = pre +:+ mid +:+ post /\ ci_eq mid needle.

End Text.

(* ===================================================================== *)
(** ** JSON values and [json.dumps]                                       *)
(* ===================================================================== *)

Module Json.

(** The JSON values the tool builds: text, integers, lists and
    dictionaries.  A Python dict keeps insertion order, hence the
    association list. *)
Inductive JSON : Type :=
  | JString (s : string)
  | JInt (z : Z)
  | JArray (items : list JSON)
  | JObject (fields : list (string * JSON)).

(** [d[k]] on a dictionary; [None] on a missing key or another value. *)
Fixpoint assoc (k : string) (fields : list (string * JSON)) : option JSON :=
  match fields with
  | [] => None
  | (k', v) :: rest => if String.eqb k k' then Some v else assoc k rest
  end.

Definition get (k : string) (v : JSON) : option JSON :=
  match v with
  | JObject fields => assoc k fields
  | _ => None
  end.

Definition quote : string := String (ascii_of_nat 34) EmptyString.
Definition backslash : string := String (ascii_of_nat 92) EmptyString.
Definition newline : string := String (ascii_of_nat 10) EmptyString.

Definition hex_digit (n : nat) : ascii :=
  if (n <? 10)%nat then ascii_of_nat (48 + n) else ascii_of_nat (87 + n).

(** One character of a string literal, as [ensure_ascii=True] writes it:
    the two-character escapes, printable ASCII as it is, anything else
    as a [\u00XX] escape. *)
Definition escape_char (c : ascii) : string :=
  let n := nat_of_ascii c in
  if (n =? 34)%nat then backslash +:+ quote
  else if (n =? 92)%nat then backslash +:+ backslash
  else if (n =? 10)%nat then backslash +:+ "n"
  else if (n =? 13)%nat then backslash +:+ "r"
  else if (n =? 9)%nat then backslash +:+ "t"
  else if (n =? 8)%nat then backslash +:+ "b"
  else if (n =? 12)%nat then backslash +:+ "f"
  else if ((32 <=? n) && (n <=? 126))%nat then String c EmptyString
  else backslash +:+ "u00" +:+
       String (hex_digit (n / 16)) (String (hex_digit (n mod 16)) EmptyString).

Fixpoint escape (s : string) : string :=
  match s with
  | EmptyString => EmptyString
  | String c s' => escape_char c +:+ escape s'
  end.

Definition encode_str (s : string) : string := quote +:+ escape s +:+ quote.

Definition encode_int (z : Z) : string := NilZero.string_of_int (Z.to_int z).

Fixpoint spaces (n : nat) : string :=
  match n with
  | O => EmptyString
  | S n' => String " " (spaces n')
  end.

Fixpoint join (sep : string) (parts : list string) : string :=
  match parts with
  | [] => EmptyString
  | [p] => p
  | p :: rest => p +:+ sep +:+ join sep rest
  end.

(** The line break and indentation before an item at nesting [level];
    nothing when no [indent] was asked for. *)
Definition newline_indent (indent : option nat) (level : nat) : string :=
  match indent with
  | Some w => newline +:+ spaces (w * level)
  | None => EmptyString
  end.

(** [','] with an indent, [', '] without (the default separators). *)
Definition item_separator (indent : option nat) : string :=
  match indent with
  | Some _ => ","
  | None => ", "
  end.

Definition key_separator : string := ": ".

Definition bracket (indent : option nat) (level : nat)
    (opening closing : string) (parts : list string) : string :=
  match parts with
  | [] => opening +:+ closing
  | _ => opening +:+ newline_indent indent (S level)
         +:+ join (item_separator indent +:+ newline_indent indent (S level)) parts
         +:+ newline_indent indent level +:+ closing
  end.

Fixpoint encode (indent : option nat) (level : nat) (v : JSON) : string :=
  match v with
  | JString s => encode_str s
  | JInt z => encode_int z
  | JArray items =>
      bracket indent level "[" "]" (List.map (encode indent (S level)) items)
  | JObject fields =>
      bracket indent level "{" "}"
        (List.map (fun kv => match kv with
                             | (k, x) => encode_str k +:+ key_separator
                                         +:+ encode indent (S level) x
                             end) fields)
  end.

(** [json.dumps(v, indent=indent)] *)
Definition dumps (indent : option nat) (v : JSON) : string := encode indent 0 v.

(** *** Reading JSON text back: [json.loads] on the same fragment *)

Definition is_ws (c : ascii) : bool :=
  let n := nat_of_ascii c in
  ((n =? 32) || (n =? 10) || (n =? 13) || (n =? 9))%nat.

Fixpoint skip_ws (s : string) : string :=
  match s with
  | EmptyString => EmptyString
  | String c s' => if is_ws c then skip_ws s' else s
  end.

Definition digit_val (c : ascii) : option nat :=
  let n := nat_of_ascii c in
  if ((48 <=? n) && (n <=? 57))%nat then Some (n - 48)%nat else None.

Definition hex_val (c : ascii) : option nat :=
  let n := nat_of_ascii c in
  if ((48 <=? n) && (n <=? 57))%nat then Some (n - 48)%nat
  else if ((97 <=? n) && (n <=? 102))%nat then Some (n - 87)%nat
  else if ((65 <=? n) && (n <=? 70))%nat then Some (n - 55)%nat
  else None.

(** The character a two-character escape stands for. *)
Definition unescape_char (c : ascii) : option ascii :=
  let n := nat_of_ascii c in
  if (n =? 34)%nat then Some c
  else if (n =? 92)%nat then Some c
  else if (n =? 47)%nat then Some c
  else if (n =? 110)%nat then Some (ascii_of_nat 10)
  else if (n =? 114)%nat then Some (ascii_of_nat 13)
  else if (n =? 116)%nat then Some (ascii_of_nat 9)
  else if (n =? 98)%nat then Some (ascii_of_nat 8)
  else if (n =? 102)%nat then Some (ascii_of_nat 12)
  else None.

(** A [\uXXXX] escape, for the code points text has here. *)
Definition unescape_hex (a b c d : ascii) : option ascii :=
  match hex_val a, hex_val b, hex_val c, hex_val d with
  | Some x, Some y, Some z, Some t =>
      let n := (((x * 16 + y) * 16 + z) * 16 + t)%nat in
      if (n <? 256)%nat then Some (ascii_of_nat n) else None
  | _, _, _, _ => None
  end.

(** The rest of a string literal after its opening quote: the text it
    denotes and what follows the closing quote. *)
Fixpoint parse_string_body (s : string) : option (string * string) :=
  match s with
  | EmptyString => None
  | String c s' =>
      let n := nat_of_ascii c in
      if (n =? 34)%nat then Some (EmptyString, s')
      else if (n =? 92)%nat then
        match s' with
        | String e s'' =>
            if (nat_of_ascii e =? 117)%nat then
              match s'' with
              | String a (String b (String c' (String d s3))) =>
                  match unescape_hex a b c' d, parse_string_body s3 with
                  | Some x, Some (body, rest) => Some (String x body, rest)
                  | _, _ => None
                  end
              | _ => None
              end
            else
              match unescape_char e, parse_string_body s'' with
              | Some x, Some (body, rest) => Some (String x body, rest)
              | _, _ => None
              end
        | EmptyString => None
        end
      else if (n <? 32)%nat then None
      else
        match parse_string_body s' with
        | Some (body, rest) => Some (String c body, rest)
        | None => None
        end
  end.

(** The digits at the head of [s], added to [acc], and what follows. *)
Fixpoint parse_digits (acc : Z) (s : string) : Z * string :=
  match s with
  | EmptyString => (acc, s)
  | String c s' =>
      match digit_val c with
      | Some d => parse_digits (acc * 10 + Z.of_nat d)%Z s'
      | None => (acc, s)
      end
  end.

(** A number without sign: one zero, or digits that start with 1..9.
    A fraction or exponent after it makes a float, which is not read. *)
Definition parse_nat (s : string) : option (Z * string) :=
  match s with
  | EmptyString => None
  | String c s' =>
      match digit_val c with
      | None => None
      | Some d =>
          let '(z, rest) :=
            if (d =? 0)%nat then (0%Z, s') else parse_digits (Z.of_nat d) s' in
          match rest with
          | String c' _ =>
              let n := nat_of_ascii c' in
              if ((n =? 46) || (n =? 101) || (n =? 69))%nat then None
              else Some (z, rest)
          | EmptyString => Some (z, rest)
          end
      end
  end.

Fixpoint parse_value (fuel : nat) (s : string) : option (JSON * string) :=
  match fuel with
  | O => None
  | S fuel' =>
      match skip_ws s with
      | EmptyString => None
      | String c s' =>
          let n := nat_of_ascii c in
          if (n =? 34)%nat then
            match parse_string_body s' with
            | Some (body, rest) => Some (JString body, rest)
            | None => None
            end
          else if (n =? 45)%nat then
            match parse_nat s' with
            | Some (z, rest) => Some (JInt (- z), rest)
            | None => None
            end
          else if (n =? 91)%nat then
            match skip_ws s' with
            | String c' rest =>
                if (nat_of_ascii c' =? 93)%nat then Some (JArray [], rest)
                else match parse_items fuel' s' with
                     | Some (items, rest') => Some (JArray items, rest')
                     | None => None
                     end
            | EmptyString => None
            end
          else if (n =? 123)%nat then
            match skip_ws s' with
            | String c' rest =>
                if (nat_of_ascii c' =? 125)%nat then Some (JObject [], rest)
                else match parse_fields fuel' s' with
                     | Some (fields, rest') => Some (JObject fields, rest')
                     | None => None
                     end
            | EmptyString => None
            end
          else
            match parse_nat (String c s') with
            | Some (z, rest) => Some (JInt z, rest)
            | None => None
            end
      end
  end
with parse_items (fuel : nat) (s : string) : option (list JSON * string) :=
  match fuel with
  | O => None
  | S fuel' =>
      match parse_value fuel' s with
      | None => None
      | Some (v, rest) =>
          match skip_ws rest with
          | String c rest' =>
              if (nat_of_ascii c =? 93)%nat then Some ([v], rest')
              else if (nat_of_ascii c =? 44)%nat then
                match parse_items fuel' rest' with
                | Some (vs, rest'') => Some (v :: vs, rest'')
                | None => None
                end
              else None
          | EmptyString => None
          end
      end
  end
with parse_fields (fuel : nat) (s : string)
    : option (list (string * JSON) * string) :=
  match fuel with
  | O => None
  | S fuel' =>
      match skip_ws s with
      | String q s' =>
          if (nat_of_ascii q =? 34)%nat then
            match parse_string_body s' with
            | None => None
            | Some (k, rest) =>
                match skip_ws rest with
                | String colon rest' =>
                    if (nat_of_ascii colon =? 58)%nat then
                      match parse_value fuel' rest' with
                      | None => None
                      | Some (v, rest'') =>
                          match skip_ws rest'' with
                          | String c r =>
                              if (nat_of_ascii c =? 125)%nat
                              then Some ([(k, v)], r)
                              else if (nat_of_ascii c =? 44)%nat then
                                match parse_fields fuel' r with
                                | Some (kvs, r') => Some ((k, v) :: kvs, r')
                                | None => None
                                end
                              else None
                          | EmptyString => None
                          end
                      end
                    else None
                | EmptyString => None
                end
            end
          else None
      | EmptyString => None
      end
  end.

(** [json.loads(s)]; [None] where Python raises [JSONDecodeError] or the
    text leaves the fragment. *)
Definition loads (s : string) : option JSON :=
  match parse_value (2 * String.length s + 2) s with
  | Some (v, rest) =>
      match skip_ws rest with
      | EmptyString => Some v
      | String _ _ => None
      end
  | None => None
  end.

End Json.

(* ===================================================================== *)
(** ** The langchain message classes                                      *)
(* ===================================================================== *)

Module Messages.

(** A tool-invocation request carried by an [AIMessage]. *)
Record ToolCall : Type := mkToolCall {
  tc_name : string;
  tc_args : string;
  tc_id : string
}.

(** The four message classes of a conversation.  Only an [AIMessage]
    has the attribute [tool_calls]. *)
Inductive Message : Type :=
  | SystemMessage (content : string)
  | HumanMessage (content : string)
  | AIMessage (content : string) (tool_calls : list ToolCall)
  | ToolMessage (content : string) (tool_call_id : string).

(** [isinstance(msg, SystemMessage)] *)
Definition is_SystemMessage (msg : Message) : bool :=
  match msg with
  | SystemMessage _ => true
  | _ => false
  end.

(** [getattr(msg, 'tool_calls')]; [None] where [hasattr] is false. *)
Definition getattr_tool_calls (msg : Message) : option (list ToolCall) :=
  match msg with
  | AIMessage _ calls => Some calls
  | _ => None
  end.

(** The tool-invocation requests a message carries: those of an
    [AIMessage], none for the other classes. *)
Definition tool_requests (msg : Message) : list ToolCall :=
  default [] (getattr_tool_calls msg).

(** The roles of the specification's data model and the class that
    plays each. *)
Inductive Role : Type := System | User | Assistant | ToolResult.

Definition role (msg : Message) : Role :=
  match msg with
  | SystemMessage _ => System
  | HumanMessage _ => User
  | AIMessage _ _ => Assistant
  | ToolMessage _ _ => ToolResult
  end.

(** What a chat model answers: the fields of the [AIMessage] it returns. *)
Record Completion : Type := mkCompletion {
  reply_content : string;
  reply_tool_calls : list ToolCall
}.

Definition ai_message (r : Completion) : Message :=
  AIMessage (reply_content r) (reply_tool_calls r).

End Messages.

(* ===================================================================== *)
(** ** The Python runtime the methods need                                *)
(* ===================================================================== *)

Module Py.
Import Messages.

(** An exception object: its class and the text [str(e)] gives. *)
Record Exception : Type := mkException {
  exc_class : string;
  exc_text : string
}.

Definition str (e : Exception) : string := exc_text e.

Definition ValueError (msg : string) : Exception := mkException "ValueError" msg.
Definition IndexError (msg : string) : Exception := mkException "IndexError" msg.
Definition AttributeError (msg : string) : Exception :=
  mkException "AttributeError" msg.

(** A call either returns or raises. *)
Inductive outcome (A : Type) : Type :=
  | Ok (a : A)
  | Raise (e : Exception).
Arguments Ok {A} a.
Arguments Raise {A} e.

(** List objects live on a heap and are named by references, so that two
    names of one list see each other's updates. *)
Abbreviation loc := positive.

(** What the process shares: [os.environ] and the heap of list objects. *)
Record world : Type := World {
  environ : gmap string string;
  heap : gmap loc (list Message)
}.

(** A computation reads and updates the world and returns or raises; what
    it did to the world before raising stays done. *)
Definition M (A : Type) : Type := world -> outcome A * world.

Definition ret {A} (a : A) : M A := fun w => (Ok a, w).

Definition bind {A B} (m : M A) (k : A -> M B) : M B :=
  fun w => match m w with
           | (Ok a, w') => k a w'
           | (Raise e, w') => (Raise e, w')
           end.

Definition raise {A} (e : Exception) : M A := fun w => (Raise e, w).

(** [try: body  except Exception as e: handler e] *)
Definition try_except {A} (body : M A) (handler : Exception -> M A) : M A :=
  fun w => match body w with
           | (Ok a, w') => (Ok a, w')
           | (Raise e, w') => handler e w'
           end.

(** The result of a call that does not touch the world. *)
Definition lift {A} (o : outcome A) : M A := fun w => (o, w).

Declare Scope py_scope.
Delimit Scope py_scope with py.
Notation "x <- c ;; k" := (bind c (fun x => k))
  (at level 100, c at next level, right associativity) : py_scope.
Notation "c ;;; k" := (bind c (fun _ => k))
  (at level 100, right associativity) : py_scope.

(** The text has a NUL character. *)
Fixpoint has_nul (s : string) : bool :=
  match s with
  | EmptyString => false
  | String c s' => (nat_of_ascii c =? 0)%nat || has_nul s'
  end.

Definition embedded_null_byte : string := "embedded null byte".

(** [os.environ[k] = v] for a variable name [k].  The operating system
    takes no value with a NUL character: the assignment then raises
    [ValueError] and writes nothing. *)
Definition environ_setitem (k v : string) : M unit :=
  fun w => if has_nul v
           then (Raise (ValueError embedded_null_byte), w)
           else (Ok tt, World (<[k := v]> (environ w)) (heap w)).

(** [k in os.environ] *)
Definition environ_contains (k : string) : M bool :=
  fun w => (Ok (bool_decide (is_Some (environ w !! k))), w).

(** A list display [[x; ...]]: a new list object. *)
Definition list_new (xs : list Message) : M loc :=
  fun w => let l := fresh (dom (heap w)) in
           (Ok l, World (environ w) (<[l := xs]> (heap w))).

(** The elements of a list object.  CPython has no dangling reference;
    reading one is given a [SystemError] so that every operation is total. *)
Definition list_read (l : loc) : M (list Message) :=
  fun w => match heap w !! l with
           | Some xs => (Ok xs, w)
           | None => (Raise (mkException "SystemError" "dangling reference"), w)
           end.

(** [a + b] on lists: a new list object, both operands left as they were. *)
Definition list_add (a b : loc) : M loc :=
  (xs <- list_read a ;; ys <- list_read b ;; list_new (xs ++ ys)%list)%py.

(** [l.append(x)]: the object [l] itself changes, under all its names. *)
Definition list_append (l : loc) (x : Message) : M unit :=
  (xs <- list_read l ;;
   fun w => (Ok tt, World (environ w) (<[l := (xs ++ [x])%list]> (heap w))))%py.

(** [l[-1]] *)
Definition list_getitem_last (l : loc) : M Message :=
  (xs <- list_read l ;;
   match last xs with
   | Some x => ret x
   | None => raise (IndexError "list index out of range")
   end)%py.

(** [any(p(x) for x in l)] *)
Definition list_any (p : Message -> bool) (l : loc) : M bool :=
  (xs <- list_read l ;; ret (existsb p xs))%py.

(** Truth value of an optional string argument: [None] and the empty
    string are false. *)
Definition truthy_str (o : option string) : bool :=
  match o with
  | Some (String _ _) => true
  | _ => false
  end.

(** Truth value of a list: false when empty. *)
Definition truthy_list {A} (xs : list A) : bool :=
  match xs with
  | [] => false
  | _ => true
  end.

End Py.

(* ===================================================================== *)
(** ** The class [RetailFootfallAnalyzer]                                 *)
(* ===================================================================== *)

Module Analyzer.
Import Text Json Messages Py.
Local Open Scope py_scope.

(** The graph state [MessagesState]: a dict whose key ['messages'] holds
    a list object. *)
Record MessagesState : Type := mkState { messages : loc }.

(** [llm.invoke]: the answer of the language model to a conversation, or
    the exception the call ends in. *)
Definition ChatModel : Type := list Message -> outcome Completion.

(** A graph node, and the [invoke] of a compiled graph. *)
Definition Node : Type := MessagesState -> M MessagesState.
Definition CompiledGraph : Type := MessagesState -> M MessagesState.

(** [langchain_core.tools.Tool] *)
Record Tool : Type := mkTool {
  tool_name : string;
  tool_description : string;
  tool_func : string -> string
}.

(** [langgraph.graph.StateGraph] while it is being built. *)
Record StateGraph : Type := mkGraph {
  nodes : list (string * Node);
  edges : list (string * string);
  conditional_edges : list (string * (MessagesState -> M string))
}.

Definition START : string := "__start__".
Definition END : string := "__end__".

Definition StateGraph_new : StateGraph := mkGraph [] [] [].

Definition add_node (name : string) (f : Node) (g : StateGraph) : StateGraph :=
  mkGraph (nodes g ++ [(name, f)])%list (edges g) (conditional_edges g).

Definition add_edge (a b : string) (g : StateGraph) : StateGraph :=
  mkGraph (nodes g) (edges g ++ [(a, b)])%list (conditional_edges g).

Definition add_conditional_edges (a : string) (f : MessagesState -> M string)
    (g : StateGraph) : StateGraph :=
  mkGraph (nodes g) (edges g) (conditional_edges g ++ [(a, f)])%list.

(** The attributes of an analyzer object.  [graph] is the last one
    [__init__] sets; until then it is absent. *)
Record RetailFootfallAnalyzer : Type := mkAnalyzer {
  llm : ChatModel;
  system_prompt : string;
  graph : option CompiledGraph
}.

(** What [analyze] returns: the dict of the final graph state, or the
    dict [{'error': text}]. *)
Inductive AnalyzeResult : Type :=
  | Output (state : MessagesState)
  | ErrorRecord (error : string).

Definition OPENAI_API_KEY : string := "OPENAI_API_KEY".

(** The text of the [ValueError] that [__init__] raises. *)
Definition key_not_found : string :=
  "OpenAI API key not found. Please provide it or set the OPENAI_API_KEY environment variable.".

Definition the_system_prompt : string :=
"You are a retail analyst specializing in footfall patterns and competitive analysis.
When using the retail_footprint_api tool:
1. Extract key insights about peak hours, customer traffic, and competitor data
2. Present the information in a clear, structured format
3. Only use factual information from the API results
4. If specific data is not available, acknowledge the limitation
5. Focus on actionable insights for business owners and marketers".

(** *** The mock tables of [_query_retail_footprint_api] *)

Definition marathahalli_data : JSON :=
  JObject [
    ("location", JString "Marathahalli, Bangalore");
    ("peak_hours", JObject [
       ("weekdays", JArray [JString "6PM-8PM"]);
       ("weekends", JArray [JString "11AM-2PM"; JString "5PM-9PM"])]);
    ("footfall_data", JObject [
       ("average_daily", JInt 1250);
       ("highest_hour", JString "6PM-7PM");
       ("busiest_day", JString "Saturday")]);
    ("competitor_insights", JObject [
       ("density", JString "High");
       ("major_players",
        JArray [JString "Central"; JString "Lifestyle"; JString "Max"]);
       ("comparative_traffic", JString "25% higher during evening hours")])].

Definition pune_data : JSON :=
  JObject [
    ("location", JString "Pune, Maharashtra");
    ("peak_hours", JObject [
       ("weekdays", JArray [JString "5PM-7PM"]);
       ("weekends", JArray [JString "12PM-3PM"; JString "6PM-8PM"])]);
    ("footfall_data", JObject [
       ("average_daily", JInt 980);
       ("highest_hour", JString "6PM-7PM");
       ("busiest_day", JString "Sunday")]);
    ("competitor_insights", JObject [
       ("density", JString "Medium");
       ("major_players",
        JArray [JString "Westside"; JString "Shoppers Stop"; JString "Pantaloons"]);
       ("comparative_traffic", JString "15% higher during weekend evenings")])].

Definition no_data : JSON :=
  JObject [("error", JString "No specific data available for this location")].

(** *** Methods *)

Definition _query_retail_footprint_api (self : RetailFootfallAnalyzer)
    (query : string) : string :=
  if str_in "marathahalli" (lower query) then
    let mock_data := marathahalli_data in
    dumps (Some 2%nat) mock_data
  else if str_in "pune" (lower query) then
    let mock_data := pune_data in
    dumps (Some 2%nat) mock_data
  else
    dumps None no_data.

(** [hasattr(last_message, 'tool_calls') and last_message.tool_calls],
    then the branch on its truth value. *)
Definition _should_continue (self : RetailFootfallAnalyzer)
    (state : MessagesState) : M string :=
  let messages := messages state in
  last_message <- list_getitem_last messages ;;
  let has_tool_calls :=
    match getattr_tool_calls last_message with
    | Some calls => truthy_list calls
    | None => false
    end in
  if has_tool_calls then ret "tools" else ret END.

(** The name [messages] is bound again by the injection; both [+] build
    new list objects.  [llm.invoke] reads the list it is handed and
    answers from its elements. *)
Definition _call_model (self : RetailFootfallAnalyzer)
    (state : MessagesState) : M MessagesState :=
  let messages := messages state in
  has_system <- list_any is_SystemMessage messages ;;
  messages <- (if negb has_system
               then (display <- list_new [SystemMessage (system_prompt self)] ;;
                     list_add display messages)
               else ret messages) ;;
  try_except
    (sent <- list_read messages ;;
     response <- lift (llm self sent) ;;
     display <- list_new [ai_message response] ;;
     extended <- list_add messages display ;;
     ret (mkState extended))
    (fun e =>
       let error_message := "An error occurred: " +:+ str e in
       display <- list_new [HumanMessage error_message] ;;
       extended <- list_add messages display ;;
       ret (mkState extended)).

Section Library.

(** The types and objects of the libraries the class is built on. *)
Variable float : Type.
(** [ChatOpenAI(model=..., temperature=...)]: reads the environment for
    the key, returns the model handle or raises. *)
Variable ChatOpenAI : string -> float -> gmap string string -> outcome ChatModel.
(** [ToolNode(tools)] and [graph.compile()] *)
Variable ToolNode : list Tool -> Node.
Variable compile : StateGraph -> CompiledGraph.

Definition _build_graph (self : RetailFootfallAnalyzer) : CompiledGraph :=
  let graph := StateGraph_new in
  let graph := add_node "agent" (_call_model self) graph in
  let retail_tool :=
    mkTool "retail_footprint_api"
      "Get retail footprint data including peak hours, footfall patterns, and competitor insights for specific locations"
      (_query_retail_footprint_api self) in
  let tools := [retail_tool] in
  let tool_node := ToolNode tools in
  let graph := add_node "tools" tool_node graph in
  let graph := add_edge START "agent" graph in
  let graph := add_conditional_edges "agent" (_should_continue self) graph in
  let graph := add_edge "tools" "agent" graph in
  compile graph.

(** The caller may leave out [model_name] and [temperature]; the
    defaults ("gpt-4o-mini" and 0) are then the arguments. *)
Definition __init__ (openai_api_key : option string) (model_name : string)
    (temperature : float) : M RetailFootfallAnalyzer :=
  match openai_api_key with
  | Some key =>
      if truthy_str openai_api_key
      then environ_setitem OPENAI_API_KEY key
      else ret tt
  | None => ret tt
  end ;;;
  present <- environ_contains OPENAI_API_KEY ;;
  if negb present then
    raise (ValueError key_not_found)
  else
    llm <- (fun w => (ChatOpenAI model_name temperature (environ w), w)) ;;
    let self := mkAnalyzer llm the_system_prompt None in
    ret (mkAnalyzer llm the_system_prompt (Some (_build_graph self))).

End Library.

(** [self.graph]: an [AttributeError] while the attribute is not set. *)
Definition getattr_graph (self : RetailFootfallAnalyzer) : M CompiledGraph :=
  match graph self with
  | Some g => ret g
  | None => raise (AttributeError
              "'RetailFootfallAnalyzer' object has no attribute 'graph'")
  end.

Definition analyze (self : RetailFootfallAnalyzer) (query : string)
    : M AnalyzeResult :=
  try_except
    (invoke <- getattr_graph self ;;
     display <- list_new [HumanMessage query] ;;
     output <- invoke (mkState display) ;;
     final_message <- list_getitem_last (messages output) ;;
     ret (Output output))
    (fun e => ret (ErrorRecord (str e))).

End Analyzer.

(* ===================================================================== *)
(** ** The script entry point                                             *)
(* ===================================================================== *)

Module Script.
Import Messages Py Analyzer.
Local Open Scope py_scope.

Definition main_query : string :=
  "Analyze the footfall patterns for retail stores in Marathahalli, Bangalore. Focus on peak hours and comparison with competitors.".

Section Library.

Variable float : Type.
(** The default temperature, [0]. *)
Variable zero : float.
Variable ChatOpenAI : string -> float -> gmap string string -> outcome ChatModel.
Variable ToolNode : list Tool -> Node.
Variable compile : StateGraph -> CompiledGraph.

(** [main()]: builds the analyzer with the default arguments, runs the
    example query and prints the report when the result has messages.
    Everything is inside [try ... except Exception]. *)
Definition main : M unit :=
  try_except
    (analyzer <- __init__ float ChatOpenAI ToolNode compile
                   None "gpt-4o-mini" zero ;;
     let query := main_query in
     result <- analyze analyzer query ;;
     match result with
     | Output state =>
         final_message <- list_getitem_last (messages state) ;;
         ret tt
     | ErrorRecord _ => ret tt
     end)
    (fun e => ret tt).

End Library.

End Script.

(* ===================================================================== *)
(** ** Vocabulary of the statements                                       *)
(* ===================================================================== *)

Module Conversation.
Import Messages Py Analyzer.

(** The conversation has a System message. *)
Definition has_system (msgs : list Message) : bool :=
  existsb is_SystemMessage msgs.

(** How many System messages the conversation has. *)
Definition count_system (msgs : list Message) : nat :=
  List.length (List.filter is_SystemMessage msgs).

(** The conversation the model is sent: the given one, behind the
    system prompt when it has no System message. *)
Definition sent_to_model (self : RetailFootfallAnalyzer)
    (msgs : list Message) : list Message :=
  if has_system msgs then msgs else SystemMessage (system_prompt self) :: msgs.

(** The message that ends the conversation after the call: the model's
    answer, or the report of the exception the call raised. *)
Definition closing_message (self : RetailFootfallAnalyzer)
    (sent : list Message) : Message :=
  match llm self sent with
  | Ok response => ai_message response
  | Raise e => HumanMessage ("An error occurred: " +:+ str e)
  end.

(** The first world is the second one before some list objects were
    created: the environment is the same and every list object that
    existed still holds the same elements. *)
Definition grows (w w' : world) : Prop :=
  environ w' = environ w /\ heap w ⊆ heap w'.

(** A credential is passed explicitly: the argument is a string and it
    is not empty. *)
Definition credential_passed (key : option string) : Prop :=
  exists k, key = Some k /\ k <> EmptyString.

(** A credential is present in the environment: the variable is set. *)
Definition credential_in_environ (w : world) : Prop :=
  is_Some (environ w !! OPENAI_API_KEY).

(** The key argument is text with a NUL character, which the
    environment refuses. *)
Definition key_has_nul (key : option string) : bool :=
  match key with
  | Some k => has_nul k
  | None => false
  end.

(** The environment after the first statement of [__init__], for a key
    the environment does not refuse. *)
Definition environ_after (key : option string) (w : world) : gmap string string :=
  match key with
  | Some k => if truthy_str key then <[OPENAI_API_KEY := k]> (environ w)
              else environ w
  | None => environ w
  end.

(** The conversation after [n] successive calls of [_call_model], each
    on the state the one before returned. *)
Fixpoint call_model_times (self : RetailFootfallAnalyzer) (n : nat)
    (state : MessagesState) : M MessagesState :=
  match n with
  | O => ret state
  | S n' => (state' <- _call_model self state ;;
             call_model_times self n' state')%py
  end.

(** The names of the nodes of a graph. *)
Definition node_names (g : StateGraph) : list string := List.map fst (nodes g).

(** A graph is well formed when its nodes have distinct names, every
    edge starts at START or a node and ends at END or a node, and every
    router sits on a node and returns END or the name of a node. *)
Definition graph_wellformed (g : StateGraph) : Prop :=
  NoDup (node_names g) /\
  (forall a b, In (a, b) (edges g) ->
     (a = START \/ In a (node_names g)) /\ (b = END \/ In b (node_names g))) /\
  (forall a router, In (a, router) (conditional_edges g) ->
     In a (node_names g) /\
     forall state w r w', router state w = (Ok r, w') ->
       r = END \/ In r (node_names g)).

(** The keys of a data record of the mock tool. *)
Definition data_keys : list string :=
  ["location"; "peak_hours"; "footfall_data"; "competitor_insights"].

(** The keys of a JSON object, in order. *)
Definition keys_of (v : Json.JSON) : list string :=
  match v with
  | Json.JObject fields => List.map fst fields
  | _ => []
  end.

End Conversation.

(* ===================================================================== *)
(** ** Sample objects the statements are run on                           *)
(* ===================================================================== *)

Module Samples.
Import Messages Py Analyzer.

(** A model whose every call fails, as under a network fault. *)
Definition failing_llm : ChatModel :=
  fun _ => Raise (mkException "APIConnectionError" "Connection error.").

(** A model that answers in plain text, without tool requests. *)
Definition plain_llm : ChatModel :=
  fun _ => Ok (mkCompletion "Peak hours are 6PM-8PM." []).

(** A model that asks for the tool until it has seen a tool result. *)
Definition tool_llm : ChatModel :=
  fun msgs =>
    if existsb (fun m => match m with ToolMessage _ _ => true | _ => false end) msgs
    then Ok (mkCompletion "Average daily footfall is 1250." [])
    else Ok (mkCompletion EmptyString
               [mkToolCall "retail_footprint_api" "Marathahalli" "call_1"]).

Definition offline_analyzer : RetailFootfallAnalyzer :=
  mkAnalyzer failing_llm the_system_prompt None.

Definition plain_analyzer : RetailFootfallAnalyzer :=
  mkAnalyzer plain_llm the_system_prompt None.

(** A compiled graph that gives up, as langgraph does when the model
    keeps asking for tools. *)
Definition looping_graph : CompiledGraph :=
  fun _ => raise (mkException "GraphRecursionError"
                    "Recursion limit of 25 reached without hitting a stop condition.").

Definition looping_analyzer : RetailFootfallAnalyzer :=
  mkAnalyzer tool_llm the_system_prompt (Some looping_graph).

(** Stand-ins for the library constructors: a [ChatOpenAI] that hands
    out the plain model, a [ToolNode] and a [compile] that hand the
    state back. *)
Definition stub_ChatOpenAI : string -> Z -> gmap string string -> outcome ChatModel :=
  fun _ _ _ => Ok plain_llm.

Definition stub_ToolNode : list Tool -> Node := fun _ state => ret state.

Definition stub_compile : StateGraph -> CompiledGraph := fun _ state => ret state.

Definition empty_world : world := World ∅ ∅.

(** A world with one conversation, the list object [1], holding [msgs]. *)
Definition world_with (msgs : list Message) : world :=
  World ∅ {[ 1%positive := msgs ]}.

Definition demo_query : string :=
  "Analyze the footfall patterns for retail stores in Marathahalli, Bangalore".

(** A key with a NUL character in third place. *)
Definition nul_key : string :=
  String "s" (String "k" (String (ascii_of_nat 0) (String "x" EmptyString))).

(** A compiled graph that hands back the state it was given. *)
Definition echo_graph : CompiledGraph := fun state => ret state.

Definition echo_analyzer : RetailFootfallAnalyzer :=
  mkAnalyzer plain_llm the_system_prompt (Some echo_graph).

(** A compiled graph that answers with an empty conversation. *)
Definition void_graph : CompiledGraph :=
  fun _ => bind (list_new []) (fun l => ret (mkState l)).

Definition void_analyzer : RetailFootfallAnalyzer :=
  mkAnalyzer plain_llm the_system_prompt (Some void_graph).

Definition asking_analyzer : RetailFootfallAnalyzer :=
  mkAnalyzer tool_llm the_system_prompt None.

End Samples.

Import Text Json Messages Py Analyzer.

(* ===================================================================== *)
(** ** Facts about text                                                   *)
(* ===================================================================== *)

Section TextFacts.

Lemma lower_app (a b : string) : lower (a +:+ b) = lower a +:+ lower b.
Proof.
  induction a as [|c a IH]; simpl; [reflexivity|]. now rewrite IH.
Qed.

(** A split of the lower-case form comes from a split of the text. *)
Lemma lower_split (s a b : string) :
  lower s = a +:+ b ->
  exists s1 s2, s = s1 +:+ s2 /\ lower s1 = a /\ lower s2 = b.
Proof.
  revert s. induction a as [|c a IH]; intros s H; simpl in H.
  - exists EmptyString, s. auto.
  - destruct s as [|d s]; simpl in H; [discriminate|].
    injection H as Hc Hs.
    destruct (IH s Hs) as (s1 & s2 & -> & H1 & H2).
    exists (String d s1), s2. simpl. now rewrite Hc, H1.
Qed.

Lemma prefix_spec (n h : string) :
  String.prefix n h = true <-> exists post, h = n +:+ post.
Proof.
  revert h. induction n as [|c n IH]; intros h.
  - split; [intros _; now exists h | intros _; now destruct h].
  - destruct h as [|d h]; simpl.
    + split; [discriminate | intros [post H]; discriminate].
    + destruct (ascii_dec c d) as [->|Hne].
      * rewrite IH. split; intros [post H]; exists post.
        -- now rewrite H.
        -- now injection H.
      * split; [discriminate|]. intros [post H]. injection H as H1 _.
        now elim Hne.
Qed.

Lemma str_in_spec (n h : string) :
  str_in n h = true <-> exists pre post, h = pre +:+ n +:+ post.
Proof.
  induction h as [|d h IH]; cbn [str_in].
  - rewrite orb_false_r, prefix_spec. split.
    + intros [post H]. now exists EmptyString, post.
    + intros (pre & post & H). destruct pre; [now exists post | discriminate].
  - rewrite orb_true_iff, prefix_spec, IH. split.
    + intros [[post H] | (pre & post & H)].
      * now exists EmptyString, post.
      * exists (String d pre), post. simpl. now rewrite H.
    + intros (pre & post & H). destruct pre as [|c pre]; simpl in H.
      * left. now exists post.
      * right. injection H as _ H. now exists pre, post.
Qed.

(** The test the code runs decides case-insensitive containment. *)
Lemma ci_contains_iff (needle q : string) :
  ci_contains needle q <-> str_in (lower needle) (lower q) = true.
Proof.
  rewrite str_in_spec. unfold ci_contains, ci_eq. split.
  - intros (pre & mid & post & -> & Hmid).
    exists (lower pre), (lower post). now rewrite !lower_app, Hmid.
  - intros (pre' & post' & H).
    apply lower_split in H as (pre & rest & -> & _ & Hrest).
    apply lower_split in Hrest as (mid & post & -> & Hmid & _).
    now exists pre, mid, post.
Qed.

(** For a needle already in lower case this is the test of the source. *)
Lemma ci_contains_test (needle q : string) :
  lower needle = needle ->
  (ci_contains needle q <-> str_in needle (lower q) = true).
Proof. intros H. rewrite ci_contains_iff. now rewrite H. Qed.

End TextFacts.

(* ===================================================================== *)
(** ** The mock tool                                                      *)
(* ===================================================================== *)

Section ToolFacts.

Variable self : RetailFootfallAnalyzer.

Lemma query_first_branch (query : string) :
  ci_contains "marathahalli" query ->
  _query_retail_footprint_api self query = dumps (Some 2%nat) marathahalli_data.
Proof.
  intros H. apply ci_contains_test in H; [|reflexivity].
  unfold _query_retail_footprint_api. now rewrite H.
Qed.

Lemma query_second_branch (query : string) :
  ~ ci_contains "marathahalli" query ->
  ci_contains "pune" query ->
  _query_retail_footprint_api self query = dumps (Some 2%nat) pune_data.
Proof.
  intros Hm Hp. rewrite ci_contains_test in Hm by reflexivity.
  apply ci_contains_test in Hp; [|reflexivity]. apply not_true_is_false in Hm.
  unfold _query_retail_footprint_api. now rewrite Hm, Hp.
Qed.

Lemma query_last_branch (query : string) :
  ~ ci_contains "marathahalli" query ->
  ~ ci_contains "pune" query ->
  _query_retail_footprint_api self query = dumps None no_data.
Proof.
  intros Hm Hp. rewrite ci_contains_test in Hm, Hp by reflexivity.
  apply not_true_is_false in Hm, Hp.
  unfold _query_retail_footprint_api. now rewrite Hm, Hp.
Qed.

End ToolFacts.

(** C5.  Every query that contains "marathahalli" in any letter case makes
    the mock tool return JSON text that reads back as a record whose
    [location] is "Marathahalli, Bangalore" and whose
    [footfall_data.average_daily] is 1250. *)
Theorem query_marathahalli_record (self : RetailFootfallAnalyzer) (query : string) :
  ci_contains "marathahalli" query ->
  exists record,
    loads (_query_retail_footprint_api self query) = Some record /\
    get "location" record = Some (JString "Marathahalli, Bangalore") /\
    (get "footfall_data" record ≫= get "average_daily") = Some (JInt 1250).
Proof.
  intros H. rewrite (query_first_branch self query H).
  exists marathahalli_data.
  split; [vm_compute; reflexivity | split; reflexivity].
Qed.

(** The query of the specification's example is such a query. *)
Lemma query_marathahalli_record_witness :
  exists record,
    loads (_query_retail_footprint_api Samples.plain_analyzer Samples.demo_query)
      = Some record /\
    get "location" record = Some (JString "Marathahalli, Bangalore") /\
    (get "footfall_data" record ≫= get "average_daily") = Some (JInt 1250).
Proof.
  apply (query_marathahalli_record Samples.plain_analyzer Samples.demo_query).
  exists "Analyze the footfall patterns for retail stores in ",
         "Marathahalli", ", Bangalore".
  split; reflexivity.
Defined.

(** C6 as stated fails: a query that names both places is answered from
    the first branch, whose busiest day is Saturday. *)
Lemma query_pune_shadowed :
  ~ (forall (self : RetailFootfallAnalyzer) (query : string),
       ci_contains "pune" query ->
       exists record,
         loads (_query_retail_footprint_api self query) = Some record /\
         (get "footfall_data" record ≫= get "busiest_day")
           = Some (JString "Sunday")).
Proof.
  intros claim.
  destruct (claim Samples.plain_analyzer "Compare Pune with Marathahalli")
    as (record & Hload & Hday).
  - exists "Compare ", "Pune", " with Marathahalli". split; reflexivity.
  - vm_compute in Hload. injection Hload as <-. vm_compute in Hday.
    discriminate.
Qed.

(** C6, amended.  Every query that contains "pune" and does not contain
    "marathahalli", in any letter case, makes the mock tool return JSON
    text that reads back as a record whose [footfall_data.busiest_day]
    is "Sunday". *)
Theorem query_pune_record (self : RetailFootfallAnalyzer) (query : string) :
  ci_contains "pune" query ->
  ~ ci_contains "marathahalli" query ->
  exists record,
    loads (_query_retail_footprint_api self query) = Some record /\
    (get "footfall_data" record ≫= get "busiest_day") = Some (JString "Sunday").
Proof.
  intros Hp Hm. rewrite (query_second_branch self query Hm Hp).
  exists pune_data. split; vm_compute; reflexivity.
Qed.

Lemma query_pune_record_witness :
  exists record,
    loads (_query_retail_footprint_api Samples.plain_analyzer
             "Footfall near PUNE station") = Some record /\
    (get "footfall_data" record ≫= get "busiest_day") = Some (JString "Sunday").
Proof.
  apply (query_pune_record Samples.plain_analyzer "Footfall near PUNE station").
  - exists "Footfall near ", "PUNE", " station". split; reflexivity.
  - intros H. apply ci_contains_iff in H. vm_compute in H. discriminate.
Defined.

(** C7.  Every query that contains neither "marathahalli" nor "pune", in
    any letter case, makes the mock tool return (it is a total function,
    it cannot raise) the one-line JSON text of an object whose only
    field is [error], holding a message. *)
Theorem query_unknown_error_record (self : RetailFootfallAnalyzer) (query : string) :
  ~ ci_contains "marathahalli" query ->
  ~ ci_contains "pune" query ->
  exists message,
    loads (_query_retail_footprint_api self query)
      = Some (JObject [("error", JString message)]) /\
    message = "No specific data available for this location".
Proof.
  intros Hm Hp. rewrite (query_last_branch self query Hm Hp).
  eexists. split; [vm_compute|]; reflexivity.
Qed.

Lemma query_unknown_error_record_witness :
  exists message,
    loads (_query_retail_footprint_api Samples.plain_analyzer "Footfall in Delhi")
      = Some (JObject [("error", JString message)]) /\
    message = "No specific data available for this location".
Proof.
  apply (query_unknown_error_record Samples.plain_analyzer "Footfall in Delhi").
  - intros H. apply ci_contains_iff in H. vm_compute in H. discriminate.
  - intros H. apply ci_contains_iff in H. vm_compute in H. discriminate.
Defined.

(* ===================================================================== *)
(** ** Facts about the runtime                                            *)
(* ===================================================================== *)

Import Conversation.

Section RuntimeFacts.

Lemma bind_Ok {A B} (m : M A) (k : A -> M B) (w w' : world) (a : A) :
  m w = (Ok a, w') -> bind m k w = k a w'.
Proof. intros H. unfold bind. now rewrite H. Qed.

Lemma bind_Raise {A B} (m : M A) (k : A -> M B) (w w' : world) (e : Exception) :
  m w = (Raise e, w') -> bind m k w = (Raise e, w').
Proof. intros H. unfold bind. now rewrite H. Qed.

Lemma try_except_Ok {A} (body : M A) (handler : Exception -> M A)
    (w w' : world) (a : A) :
  body w = (Ok a, w') -> try_except body handler w = (Ok a, w').
Proof. intros H. unfold try_except. now rewrite H. Qed.

Lemma try_except_Raise {A} (body : M A) (handler : Exception -> M A)
    (w w' : world) (e : Exception) :
  body w = (Raise e, w') -> try_except body handler w = handler e w'.
Proof. intros H. unfold try_except. now rewrite H. Qed.

(** Whatever the body does, a handler that returns makes the whole
    statement return. *)
Lemma try_except_total {A} (body : M A) (f : Exception -> A) (w : world) :
  exists a w', try_except body (fun e => ret (f e)) w = (Ok a, w').
Proof.
  unfold try_except. destruct (body w) as [[a|e] w']; eauto.
Qed.

Lemma grows_refl (w : world) : grows w w.
Proof. split; reflexivity. Qed.

Lemma grows_trans (w1 w2 w3 : world) : grows w1 w2 -> grows w2 w3 -> grows w1 w3.
Proof.
  intros [E1 H1] [E2 H2]. split; [congruence | now transitivity (heap w2)].
Qed.

Lemma grows_lookup (w w' : world) (l : loc) (xs : list Message) :
  grows w w' -> heap w !! l = Some xs -> heap w' !! l = Some xs.
Proof. intros [_ H] Hl. eapply lookup_weaken; eauto. Qed.

Lemma grows_fresh (w w' : world) (l : loc) :
  grows w w' -> heap w' !! l = None -> heap w !! l = None.
Proof. intros [_ H] Hl. eapply lookup_weaken_None; eauto. Qed.

Lemma list_new_spec (xs : list Message) (w : world) :
  exists l w', list_new xs w = (Ok l, w') /\
    heap w !! l = None /\ heap w' !! l = Some xs /\ grows w w'.
Proof.
  unfold list_new. set (l := fresh (dom (heap w))).
  assert (Hl : heap w !! l = None).
  { apply not_elem_of_dom. apply is_fresh. }
  eexists _, _. split; [reflexivity|]. simpl.
  repeat split; auto.
  - apply lookup_insert_eq.
  - now apply insert_subseteq.
Qed.

Lemma list_read_spec (l : loc) (w : world) (xs : list Message) :
  heap w !! l = Some xs -> list_read l w = (Ok xs, w).
Proof. intros H. unfold list_read. now rewrite H. Qed.

Lemma list_add_spec (a b : loc) (w : world) (xs ys : list Message) :
  heap w !! a = Some xs -> heap w !! b = Some ys ->
  exists l w', list_add a b w = (Ok l, w') /\
    heap w !! l = None /\ heap w' !! l = Some (xs ++ ys)%list /\ grows w w'.
Proof.
  intros Ha Hb. unfold list_add.
  rewrite (bind_Ok _ _ _ _ _ (list_read_spec a w xs Ha)).
  rewrite (bind_Ok _ _ _ _ _ (list_read_spec b w ys Hb)).
  apply list_new_spec.
Qed.

Lemma list_any_spec (p : Message -> bool) (l : loc) (w : world) (xs : list Message) :
  heap w !! l = Some xs -> list_any p l w = (Ok (existsb p xs), w).
Proof.
  intros H. unfold list_any.
  now rewrite (bind_Ok _ _ _ _ _ (list_read_spec l w xs H)).
Qed.

Lemma list_getitem_last_spec (l : loc) (w : world) (xs : list Message) :
  heap w !! l = Some xs ->
  list_getitem_last l w =
    match last xs with
    | Some x => (Ok x, w)
    | None => (Raise (IndexError "list index out of range"), w)
    end.
Proof.
  intros H. unfold list_getitem_last.
  rewrite (bind_Ok _ _ _ _ _ (list_read_spec l w xs H)).
  now destruct (last xs).
Qed.

(** In-place [append] is seen through every name of the list: this is
    what a method must not do to a list it was handed if the caller's
    sequence is to stay as it was. *)
Lemma list_append_mutates (l : loc) (x : Message) (w : world) (xs : list Message) :
  heap w !! l = Some xs ->
  exists w', list_append l x w = (Ok tt, w') /\
    heap w' !! l = Some (xs ++ [x])%list.
Proof.
  intros H. unfold list_append.
  rewrite (bind_Ok _ _ _ _ _ (list_read_spec l w xs H)).
  eexists. split; [reflexivity|]. simpl. apply lookup_insert_eq.
Qed.

End RuntimeFacts.

(* ===================================================================== *)
(** ** The loop controller                                                *)
(* ===================================================================== *)

Section ShouldContinue.

Variable self : RetailFootfallAnalyzer.

(** The branch taken on a conversation that ends in [m]. *)
Lemma should_continue_last (state : MessagesState) (w : world)
    (msgs : list Message) (m : Message) :
  heap w !! messages state = Some msgs ->
  last msgs = Some m ->
  _should_continue self state w =
    (Ok (if truthy_list (tool_requests m) then "tools" else END), w).
Proof.
  intros Hmsgs Hlast. unfold _should_continue.
  rewrite (bind_Ok _ _ w w m).
  - unfold tool_requests. destruct (getattr_tool_calls m) as [calls|]; simpl.
    + now destruct (truthy_list calls).
    + reflexivity.
  - rewrite (list_getitem_last_spec _ _ _ Hmsgs). now rewrite Hlast.
Qed.

(** On an empty conversation there is no last message: [messages[-1]]
    raises. *)
Lemma should_continue_empty (state : MessagesState) (w : world) :
  heap w !! messages state = Some [] ->
  _should_continue self state w =
    (Raise (IndexError "list index out of range"), w).
Proof.
  intros Hmsgs. unfold _should_continue.
  apply bind_Raise. now rewrite (list_getitem_last_spec _ _ _ Hmsgs).
Qed.

End ShouldContinue.

(** C1.  In every conversation state, [_should_continue] returns the
    tools node exactly when the last message of the conversation carries
    at least one tool-invocation request, and it returns END when the
    last message carries none.  The state is left as it was. *)
Theorem should_continue_branch (self : RetailFootfallAnalyzer)
    (state : MessagesState) (w : world) (msgs : list Message) :
  heap w !! messages state = Some msgs ->
  (_should_continue self state w = (Ok "tools", w) <->
     exists m, last msgs = Some m /\ tool_requests m <> []) /\
  (forall m, last msgs = Some m -> tool_requests m = [] ->
     _should_continue self state w = (Ok END, w)).
Proof.
  intros Hmsgs. split; [split|].
  - intros Hrun. destruct (last msgs) as [m|] eqn:Hlast.
    + exists m. split; [reflexivity|].
      rewrite (should_continue_last self state w msgs m Hmsgs Hlast) in Hrun.
      destruct (tool_requests m); [discriminate Hrun | discriminate].
    + apply last_None in Hlast. subst msgs.
      rewrite (should_continue_empty self state w Hmsgs) in Hrun.
      discriminate Hrun.
  - intros (m & Hlast & Hreq).
    rewrite (should_continue_last self state w msgs m Hmsgs Hlast).
    destruct (tool_requests m); [now elim Hreq | reflexivity].
  - intros m Hlast Hreq.
    rewrite (should_continue_last self state w msgs m Hmsgs Hlast).
    now rewrite Hreq.
Qed.

(** The theorem on a conversation whose last message asks for the tool. *)
Lemma should_continue_branch_witness :
  let calls := [mkToolCall "retail_footprint_api" "Marathahalli" "call_1"] in
  let w := Samples.world_with [HumanMessage "Footfall?"; AIMessage EmptyString calls] in
  (_should_continue Samples.plain_analyzer (mkState 1%positive) w = (Ok "tools", w) <->
     exists m, last [HumanMessage "Footfall?"; AIMessage EmptyString calls] = Some m
               /\ tool_requests m <> []) /\
  (forall m, last [HumanMessage "Footfall?"; AIMessage EmptyString calls] = Some m ->
     tool_requests m = [] ->
     _should_continue Samples.plain_analyzer (mkState 1%positive) w = (Ok END, w)).
Proof.
  intros calls w.
  apply (should_continue_branch Samples.plain_analyzer (mkState 1%positive) w
           [HumanMessage "Footfall?"; AIMessage EmptyString calls]).
  reflexivity.
Defined.

(* ===================================================================== *)
(** ** The model invoker                                                  *)
(* ===================================================================== *)

Section CallModel.

Variable self : RetailFootfallAnalyzer.

(** The injection step: afterwards [messages] names a list that holds
    what the model is sent; it is the caller's list when nothing was
    injected, a new one otherwise. *)
Lemma inject_system_run (l : loc) (w : world) (msgs : list Message) :
  heap w !! l = Some msgs ->
  exists l' w',
    (if negb (has_system msgs)
     then (display <- list_new [SystemMessage (system_prompt self)] ;;
           list_add display l)%py
     else ret l) w = (Ok l', w') /\
    heap w' !! l' = Some (sent_to_model self msgs) /\ grows w w'.
Proof.
  intros Hl. unfold sent_to_model. destruct (has_system msgs); simpl.
  - exists l, w. repeat split; auto.
  - destruct (list_new_spec [SystemMessage (system_prompt self)] w)
      as (d & w1 & Hnew & _ & Hd & G1).
    rewrite (bind_Ok _ _ _ _ _ Hnew).
    destruct (list_add_spec d l w1 _ msgs Hd (grows_lookup _ _ _ _ G1 Hl))
      as (l' & w2 & Hadd & _ & Hl' & G2).
    exists l', w2. split; [exact Hadd|]. split; [exact Hl'|].
    eapply grows_trans; eauto.
Qed.

(** The append step, [messages + [x]]: a new list object. *)
Lemma extend_run (l : loc) (x : Message) (w : world) (xs : list Message) :
  heap w !! l = Some xs ->
  exists out w',
    (display <- list_new [x] ;;
     extended <- list_add l display ;;
     ret (mkState extended))%py w = (Ok (mkState out), w') /\
    heap w !! out = None /\
    heap w' !! out = Some (xs ++ [x])%list /\ grows w w'.
Proof.
  intros Hl.
  destruct (list_new_spec [x] w) as (d & w1 & Hnew & _ & Hd & G1).
  rewrite (bind_Ok _ _ _ _ _ Hnew).
  destruct (list_add_spec l d w1 xs [x] (grows_lookup _ _ _ _ G1 Hl) Hd)
    as (out & w2 & Hadd & Hfresh & Hout & G2).
  rewrite (bind_Ok _ _ _ _ _ Hadd).
  exists out, w2. split; [reflexivity|]. split; [|split].
  - eapply grows_fresh; eauto.
  - exact Hout.
  - eapply grows_trans; eauto.
Qed.

(** One call of [_call_model]: it returns, the state it returns names a
    list object that did not exist before, and that list holds what was
    sent followed by the closing message. *)
Lemma call_model_run (state : MessagesState) (w : world) (msgs : list Message) :
  heap w !! messages state = Some msgs ->
  exists out w',
    _call_model self state w = (Ok (mkState out), w') /\
    heap w !! out = None /\
    heap w' !! out =
      Some (sent_to_model self msgs
            ++ [closing_message self (sent_to_model self msgs)])%list /\
    grows w w'.
Proof.
  intros Hmsgs. unfold _call_model.
  rewrite (bind_Ok _ _ _ _ _ (list_any_spec _ _ _ _ Hmsgs)).
  destruct (inject_system_run (messages state) w msgs Hmsgs)
    as (l & w1 & Hinj & Hl & G1).
  fold (has_system msgs). rewrite (bind_Ok _ _ _ _ _ Hinj).
  unfold closing_message.
  destruct (llm self (sent_to_model self msgs)) as [response|e] eqn:Hllm.
  - destruct (extend_run l (ai_message response) w1 _ Hl)
      as (out & w2 & Hext & Hfresh & Hout & G2).
    exists out, w2. split; [|split; [|split]].
    + apply try_except_Ok.
      rewrite (bind_Ok _ _ _ _ _ (list_read_spec l w1 _ Hl)).
      rewrite (bind_Ok _ _ w1 w1 response); [exact Hext|].
      unfold lift. now rewrite Hllm.
    + eapply grows_fresh; eauto.
    + exact Hout.
    + eapply grows_trans; eauto.
  - destruct (extend_run l (HumanMessage ("An error occurred: " +:+ str e)) w1 _ Hl)
      as (out & w2 & Hext & Hfresh & Hout & G2).
    exists out, w2. split; [|split; [|split]].
    + rewrite (try_except_Raise _ _ w1 w1 e); [exact Hext|].
      rewrite (bind_Ok _ _ _ _ _ (list_read_spec l w1 _ Hl)).
      apply bind_Raise. unfold lift. now rewrite Hllm.
    + eapply grows_fresh; eauto.
    + exact Hout.
    + eapply grows_trans; eauto.
Qed.

Lemma has_system_sent (msgs : list Message) :
  has_system (sent_to_model self msgs) = true.
Proof.
  unfold sent_to_model. destruct (has_system msgs) eqn:H; [exact H | reflexivity].
Qed.

Lemma closing_message_not_system (sent : list Message) :
  is_SystemMessage (closing_message self sent) = false.
Proof. unfold closing_message. now destruct (llm self sent). Qed.

Lemma has_system_app (xs ys : list Message) :
  has_system (xs ++ ys)%list = has_system xs || has_system ys.
Proof. apply existsb_app. Qed.

Lemma count_system_app (xs ys : list Message) :
  count_system (xs ++ ys)%list = (count_system xs + count_system ys)%nat.
Proof. unfold count_system. now rewrite List.filter_app, List.length_app. Qed.

Lemma count_system_none (msgs : list Message) :
  has_system msgs = false -> count_system msgs = 0%nat.
Proof.
  unfold has_system, count_system. induction msgs as [|m msgs IH]; simpl.
  - reflexivity.
  - destruct (is_SystemMessage m); simpl; [discriminate | exact IH].
Qed.

End CallModel.

(** C2 as stated fails: when the model call raises, the message that
    [_call_model] appends is a [HumanMessage], which has the User role,
    not the Assistant role. *)
Lemma call_model_failure_not_assistant :
  ~ (forall (self : RetailFootfallAnalyzer) (state : MessagesState) (w : world)
            (msgs : list Message) (e : Exception),
       heap w !! messages state = Some msgs ->
       llm self (sent_to_model self msgs) = Raise e ->
       exists out w' conversation m,
         _call_model self state w = (Ok (mkState out), w') /\
         heap w' !! out = Some (conversation ++ [m])%list /\
         role m = Assistant).
Proof.
  intros claim.
  pose (w := Samples.world_with [HumanMessage "Footfall in Pune?"]).
  assert (Hmsgs : heap w !! messages (mkState 1%positive)
                  = Some [HumanMessage "Footfall in Pune?"]) by reflexivity.
  destruct (claim Samples.offline_analyzer (mkState 1%positive) w _
              (mkException "APIConnectionError" "Connection error.")
              Hmsgs eq_refl)
    as (out & w' & conversation & m & Hrun & Hout & Hrole).
  destruct (call_model_run Samples.offline_analyzer _ w _ Hmsgs)
    as (out0 & w0 & Hrun0 & _ & Hout0 & _).
  rewrite Hrun0 in Hrun. injection Hrun as -> ->.
  rewrite Hout0 in Hout. apply (inj Some) in Hout.
  apply app_inj_tail in Hout as [_ <-].
  discriminate Hrole.
Qed.

(** C2, amended.  For every conversation and every exception raised by
    the language-model call, [_call_model] does not propagate the
    exception: it returns the conversation that was sent, extended with
    a User-role message ([HumanMessage]) whose content is the text
    "An error occurred: " followed by the text of the exception. *)
Theorem call_model_contains_failure (self : RetailFootfallAnalyzer)
    (state : MessagesState) (w : world) (msgs : list Message) (e : Exception) :
  heap w !! messages state = Some msgs ->
  llm self (sent_to_model self msgs) = Raise e ->
  exists out w',
    _call_model self state w = (Ok (mkState out), w') /\
    heap w' !! out =
      Some (sent_to_model self msgs
            ++ [HumanMessage ("An error occurred: " +:+ str e)])%list /\
    role (HumanMessage ("An error occurred: " +:+ str e)) = User.
Proof.
  intros Hmsgs Hllm.
  destruct (call_model_run self state w msgs Hmsgs)
    as (out & w' & Hrun & _ & Hout & _).
  exists out, w'. split; [exact Hrun|]. split; [|reflexivity].
  rewrite Hout. unfold closing_message. now rewrite Hllm.
Qed.

Lemma call_model_contains_failure_witness :
  let w := Samples.world_with [HumanMessage "Footfall in Pune?"] in
  exists out w',
    _call_model Samples.offline_analyzer (mkState 1%positive) w
      = (Ok (mkState out), w') /\
    heap w' !! out =
      Some [SystemMessage the_system_prompt; HumanMessage "Footfall in Pune?";
            HumanMessage "An error occurred: Connection error."] /\
    role (HumanMessage "An error occurred: Connection error.") = User.
Proof.
  intros w.
  apply (call_model_contains_failure Samples.offline_analyzer (mkState 1%positive) w
           [HumanMessage "Footfall in Pune?"]
           (mkException "APIConnectionError" "Connection error.")).
  - reflexivity.
  - reflexivity.
Defined.

(** C4.  For every conversation without a System message, one call of
    [_call_model] returns a conversation whose first element is a System
    message, and a second call on that result adds no other System
    message: it only appends its closing message, and the conversation
    still has exactly one System message. *)
Theorem call_model_injects_system_once (self : RetailFootfallAnalyzer)
    (state : MessagesState) (w : world) (msgs : list Message) :
  heap w !! messages state = Some msgs ->
  has_system msgs = false ->
  exists state1 w1 msgs1,
    _call_model self state w = (Ok state1, w1) /\
    heap w1 !! messages state1 = Some msgs1 /\
    head msgs1 = Some (SystemMessage (system_prompt self)) /\
    count_system msgs1 = 1%nat /\
    exists state2 w2 m,
      _call_model self state1 w1 = (Ok state2, w2) /\
      heap w2 !! messages state2 = Some (msgs1 ++ [m])%list /\
      is_SystemMessage m = false /\
      count_system (msgs1 ++ [m])%list = 1%nat.
Proof.
  intros Hmsgs Hnone.
  destruct (call_model_run self state w msgs Hmsgs)
    as (out1 & w1 & Hrun1 & _ & Hout1 & _).
  set (msgs1 := (sent_to_model self msgs
                 ++ [closing_message self (sent_to_model self msgs)])%list) in *.
  assert (Hsent : sent_to_model self msgs = SystemMessage (system_prompt self) :: msgs).
  { unfold sent_to_model. now rewrite Hnone. }
  assert (Hcount : count_system msgs1 = 1%nat).
  { unfold msgs1. rewrite count_system_app, Hsent.
    change (count_system (SystemMessage (system_prompt self) :: msgs))
      with (S (count_system msgs)).
    rewrite (count_system_none msgs Hnone).
    unfold count_system. simpl.
    now rewrite closing_message_not_system. }
  assert (Hhas : has_system msgs1 = true).
  { unfold msgs1. now rewrite has_system_app, has_system_sent. }
  exists (mkState out1), w1, msgs1.
  split; [exact Hrun1|]. split; [exact Hout1|]. split; [|split; [exact Hcount|]].
  - unfold msgs1. now rewrite Hsent.
  - destruct (call_model_run self (mkState out1) w1 msgs1 Hout1)
      as (out2 & w2 & Hrun2 & _ & Hout2 & _).
    assert (Hsent1 : sent_to_model self msgs1 = msgs1).
    { unfold sent_to_model. now rewrite Hhas. }
    rewrite Hsent1 in Hout2.
    exists (mkState out2), w2, (closing_message self msgs1).
    split; [exact Hrun2|]. split; [exact Hout2|].
    split; [apply closing_message_not_system|].
    rewrite count_system_app, Hcount. unfold count_system. simpl.
    now rewrite closing_message_not_system.
Qed.

Lemma call_model_injects_system_once_witness :
  let w := Samples.world_with [HumanMessage "Footfall in Pune?"] in
  exists state1 w1 msgs1,
    _call_model Samples.plain_analyzer (mkState 1%positive) w = (Ok state1, w1) /\
    heap w1 !! messages state1 = Some msgs1 /\
    head msgs1 = Some (SystemMessage the_system_prompt) /\
    count_system msgs1 = 1%nat /\
    exists state2 w2 m,
      _call_model Samples.plain_analyzer state1 w1 = (Ok state2, w2) /\
      heap w2 !! messages state2 = Some (msgs1 ++ [m])%list /\
      is_SystemMessage m = false /\
      count_system (msgs1 ++ [m])%list = 1%nat.
Proof.
  intros w.
  apply (call_model_injects_system_once Samples.plain_analyzer (mkState 1%positive) w
           [HumanMessage "Footfall in Pune?"]).
  - reflexivity.
  - reflexivity.
Defined.

(** C9.  For every conversation passed to [_call_model], the caller's
    list of messages holds the same elements after the call as before.
    The call returns a state whose list is a new list object, every list
    object that existed keeps its elements, and the environment is
    untouched. *)
Theorem call_model_leaves_input (self : RetailFootfallAnalyzer)
    (state : MessagesState) (w : world) (msgs : list Message) :
  heap w !! messages state = Some msgs ->
  exists state' w',
    _call_model self state w = (Ok state', w') /\
    heap w' !! messages state = Some msgs /\
    messages state' <> messages state /\
    heap w !! messages state' = None /\
    (forall l xs, heap w !! l = Some xs -> heap w' !! l = Some xs) /\
    environ w' = environ w.
Proof.
  intros Hmsgs.
  destruct (call_model_run self state w msgs Hmsgs)
    as (out & w' & Hrun & Hfresh & _ & G).
  exists (mkState out), w'. split; [exact Hrun|].
  split; [exact (grows_lookup _ _ _ _ G Hmsgs)|].
  split; [|split; [exact Hfresh|split]].
  - simpl. intros ->. rewrite Hmsgs in Hfresh. discriminate.
  - intros l xs. apply grows_lookup, G.
  - apply G.
Qed.

Lemma call_model_leaves_input_witness :
  let w := Samples.world_with [HumanMessage "Footfall in Pune?"] in
  exists state' w',
    _call_model Samples.plain_analyzer (mkState 1%positive) w = (Ok state', w') /\
    heap w' !! 1%positive = Some [HumanMessage "Footfall in Pune?"] /\
    messages state' <> 1%positive /\
    heap w !! messages state' = None /\
    (forall l xs, heap w !! l = Some xs -> heap w' !! l = Some xs) /\
    environ w' = environ w.
Proof.
  intros w.
  apply (call_model_leaves_input Samples.plain_analyzer (mkState 1%positive) w
           [HumanMessage "Footfall in Pune?"]).
  reflexivity.
Defined.

(* ===================================================================== *)
(** ** The top-level operation                                            *)
(* ===================================================================== *)

Section Analyze.

Variable self : RetailFootfallAnalyzer.

(** When the graph returns a conversation that is not empty, [analyze]
    returns the graph's output. *)
Lemma analyze_returns_output (query : string) (w w0 w1 : world)
    (invoke : CompiledGraph) (display : loc) (output : MessagesState)
    (msgs : list Message) (m : Message) :
  graph self = Some invoke ->
  list_new [HumanMessage query] w = (Ok display, w0) ->
  invoke (mkState display) w0 = (Ok output, w1) ->
  heap w1 !! messages output = Some msgs ->
  last msgs = Some m ->
  analyze self query w = (Ok (Output output), w1).
Proof.
  intros Hg Hnew Hrun Hmsgs Hlast. unfold analyze, getattr_graph.
  apply try_except_Ok. rewrite Hg.
  rewrite (bind_Ok _ _ w w invoke eq_refl).
  rewrite (bind_Ok _ _ _ _ _ Hnew), (bind_Ok _ _ _ _ _ Hrun).
  rewrite (bind_Ok _ _ w1 w1 m); [reflexivity|].
  rewrite (list_getitem_last_spec _ _ _ Hmsgs). now rewrite Hlast.
Qed.

End Analyze.

(** C3.  For every query string, [analyze] returns to its caller and
    never raises; when the execution of the graph raises, [analyze]
    returns the error record whose text is that of the exception. *)
Theorem analyze_never_raises (self : RetailFootfallAnalyzer) (query : string)
    (w : world) :
  (exists result w', analyze self query w = (Ok result, w')) /\
  (forall (invoke : CompiledGraph) (display : loc) (w0 w1 : world) (e : Exception),
     graph self = Some invoke ->
     list_new [HumanMessage query] w = (Ok display, w0) ->
     invoke (mkState display) w0 = (Raise e, w1) ->
     analyze self query w = (Ok (ErrorRecord (str e)), w1)).
Proof.
  split.
  - unfold analyze. apply (try_except_total _ (fun e => ErrorRecord (str e))).
  - intros invoke display w0 w1 e Hg Hnew Hrun. unfold analyze, getattr_graph.
    rewrite (try_except_Raise _ _ w w1 e); [reflexivity|].
    rewrite Hg. rewrite (bind_Ok _ _ w w invoke eq_refl).
    rewrite (bind_Ok _ _ _ _ _ Hnew). now apply bind_Raise.
Qed.

(** The theorem on an analyzer whose graph gives up. *)
Lemma analyze_never_raises_witness :
  analyze Samples.looping_analyzer Samples.demo_query Samples.empty_world
  = (Ok (ErrorRecord "Recursion limit of 25 reached without hitting a stop condition."),
     World ∅ {[ 1%positive := [HumanMessage Samples.demo_query] ]}).
Proof.
  apply (proj2 (analyze_never_raises Samples.looping_analyzer Samples.demo_query
                  Samples.empty_world)
           Samples.looping_graph 1%positive
           (World ∅ {[ 1%positive := [HumanMessage Samples.demo_query] ]})
           (World ∅ {[ 1%positive := [HumanMessage Samples.demo_query] ]})
           (mkException "GraphRecursionError"
              "Recursion limit of 25 reached without hitting a stop condition.")).
  - reflexivity.
  - reflexivity.
  - reflexivity.
Defined.

(* ===================================================================== *)
(** ** Construction                                                       *)
(* ===================================================================== *)

Section Init.

Variable float : Type.
Variable ChatOpenAI : string -> float -> gmap string string -> outcome ChatModel.
Variable ToolNode : list Tool -> Node.
Variable compile : StateGraph -> CompiledGraph.

Implicit Types (key : option string) (w : world).

Lemma truthy_str_passed key : truthy_str key = true <-> credential_passed key.
Proof.
  unfold credential_passed. split.
  - destruct key as [[|c k]|]; try discriminate. intros _.
    exists (String c k). split; [reflexivity | discriminate].
  - intros (k & -> & Hk). destruct k; [now elim Hk | reflexivity].
Qed.

Lemma has_nul_truthy (k : string) : has_nul k = true -> truthy_str (Some k) = true.
Proof. now destruct k. Qed.

Lemma key_has_nul_not_passed key : ~ credential_passed key -> key_has_nul key = false.
Proof.
  intros Hkey. destruct key as [k|]; [|reflexivity]. simpl.
  destruct (has_nul k) eqn:Hnul; [|reflexivity].
  elim Hkey. apply truthy_str_passed. now apply has_nul_truthy.
Qed.

(** The constructor, branch by branch: the write of the key, which the
    environment may refuse, then the credential check, then whatever the
    [ChatOpenAI] constructor does. *)
Lemma init_run key (model_name : string) (temperature : float) w :
  __init__ float ChatOpenAI ToolNode compile key model_name temperature w =
    if key_has_nul key then (Raise (ValueError embedded_null_byte), w)
    else
      let w' := World (environ_after key w) (heap w) in
      if bool_decide (is_Some (environ_after key w !! OPENAI_API_KEY)) then
        match ChatOpenAI model_name temperature (environ_after key w) with
        | Ok llm =>
            (Ok (mkAnalyzer llm the_system_prompt
                   (Some (_build_graph ToolNode compile
                            (mkAnalyzer llm the_system_prompt None)))), w')
        | Raise e => (Raise e, w')
        end
      else (Raise (ValueError key_not_found), w').
Proof.
  unfold __init__, environ_after, key_has_nul, bind, environ_contains,
    environ_setitem, ret, raise.
  destruct key as [k|]; [|simpl; destruct w as [env h]; simpl;
    case_bool_decide; simpl; try reflexivity;
    destruct (ChatOpenAI model_name temperature _); reflexivity].
  destruct (has_nul k) eqn:Hnul.
  - now rewrite (has_nul_truthy k Hnul).
  - destruct (truthy_str (Some k)); simpl; destruct w as [env h]; simpl;
      case_bool_decide; simpl; try reflexivity;
      destruct (ChatOpenAI model_name temperature _); reflexivity.
Qed.

End Init.

(** C8.  Construction fails fast: when no credential is passed and none
    is in the environment, [__init__] raises the [ValueError] for the
    missing key at once and changes nothing; when a credential is passed
    or is in the environment, [__init__] does not raise for that reason:
    it returns if the [ChatOpenAI] constructor returns, and what it
    raises is either what that constructor raises or, for a key with a
    NUL character, the [ValueError] of the refused write to the
    environment, with nothing changed. *)
Theorem init_fails_fast (float : Type)
    (ChatOpenAI : string -> float -> gmap string string -> outcome ChatModel)
    (ToolNode : list Tool -> Node) (compile : StateGraph -> CompiledGraph)
    (key : option string) (model_name : string) (temperature : float)
    (w : world) :
  (~ credential_passed key -> ~ credential_in_environ w ->
     __init__ float ChatOpenAI ToolNode compile key model_name temperature w
     = (Raise (ValueError key_not_found), w)) /\
  (credential_passed key \/ credential_in_environ w ->
     exists r w',
       __init__ float ChatOpenAI ToolNode compile key model_name temperature w
       = (r, w') /\
       match r with
       | Ok self =>
           credential_in_environ w' /\
           exists model,
             ChatOpenAI model_name temperature (environ w') = Ok model /\
             llm self = model
       | Raise e =>
           (key_has_nul key = true /\
            e = ValueError embedded_null_byte /\ w' = w) \/
           (key_has_nul key = false /\
            credential_in_environ w' /\
            ChatOpenAI model_name temperature (environ w') = Raise e)
       end).
Proof.
  rewrite init_run. split.
  - intros Hkey Henv. rewrite (key_has_nul_not_passed key Hkey).
    rewrite <- truthy_str_passed in Hkey.
    apply not_true_is_false in Hkey.
    assert (Hafter : environ_after key w = environ w).
    { unfold environ_after. destruct key; [now rewrite Hkey | reflexivity]. }
    cbv zeta. rewrite Hafter. rewrite bool_decide_eq_false_2 by exact Henv.
    now destruct w.
  - intros Havail. destruct (key_has_nul key) eqn:Hnul.
    { eexists _, _. split; [reflexivity|]. left. auto. }
    assert (Hset : is_Some (environ_after key w !! OPENAI_API_KEY)).
    { destruct Havail as [Hkey | Henv].
      - destruct Hkey as (k & -> & Hk). unfold environ_after.
        destruct k; [now elim Hk|]. simpl. rewrite lookup_insert_eq. eauto.
      - unfold environ_after.
        destruct key as [k|]; [destruct (truthy_str (Some k))|]; try exact Henv.
        rewrite lookup_insert_eq. eauto. }
    cbv zeta. rewrite bool_decide_eq_true_2 by exact Hset.
    destruct (ChatOpenAI model_name temperature (environ_after key w))
      as [model|e] eqn:Hctor; eexists _, _; (split; [reflexivity|]).
    + split; [exact Hset|]. simpl. eauto.
    + right. simpl. auto.
Qed.

(** The theorem on an empty environment: without an argument the
    constructor raises, with one it returns. *)
Lemma init_fails_fast_witness :
  __init__ Z Samples.stub_ChatOpenAI Samples.stub_ToolNode Samples.stub_compile
    None "gpt-4o-mini" 0%Z Samples.empty_world
  = (Raise (ValueError key_not_found), Samples.empty_world)
  /\
  exists r w',
    __init__ Z Samples.stub_ChatOpenAI Samples.stub_ToolNode Samples.stub_compile
      (Some "sk-test") "gpt-4o-mini" 0%Z Samples.empty_world = (r, w') /\
    match r with
    | Ok self =>
        credential_in_environ w' /\
        exists model,
          Samples.stub_ChatOpenAI "gpt-4o-mini" 0%Z (environ w') = Ok model /\
          llm self = model
    | Raise e =>
        (key_has_nul (Some "sk-test") = true /\
         e = ValueError embedded_null_byte /\ w' = Samples.empty_world) \/
        (key_has_nul (Some "sk-test") = false /\
         credential_in_environ w' /\
         Samples.stub_ChatOpenAI "gpt-4o-mini" 0%Z (environ w') = Raise e)
    end.
Proof.
  split.
  - apply (proj1 (init_fails_fast Z Samples.stub_ChatOpenAI Samples.stub_ToolNode
                    Samples.stub_compile None "gpt-4o-mini" 0%Z Samples.empty_world)).
    + intros (k & Hk & _). discriminate Hk.
    + intros [v Hv]. vm_compute in Hv. discriminate Hv.
  - apply (proj2 (init_fails_fast Z Samples.stub_ChatOpenAI Samples.stub_ToolNode
                    Samples.stub_compile (Some "sk-test") "gpt-4o-mini" 0%Z
                    Samples.empty_world)).
    left. exists "sk-test". split; [reflexivity | discriminate].
Defined.



(* ===================================================================== *)
(** ** More on the loop controller                                        *)
(* ===================================================================== *)

Section ShouldContinueMore.

Variable self : RetailFootfallAnalyzer.

(** Whatever the state, [_should_continue] leaves the world alone, and
    what it returns is one of its two routes. *)
Lemma should_continue_range (state : MessagesState) (w w' : world) (r : string) :
  _should_continue self state w = (Ok r, w') ->
  w' = w /\ (r = "tools" \/ r = END).
Proof.
  unfold _should_continue, list_getitem_last, list_read, bind, ret, raise.
  destruct (heap w !! messages state) as [msgs|]; [|discriminate].
  destruct (last msgs) as [m|]; [|discriminate].
  destruct (getattr_tool_calls m) as [calls|]; [destruct (truthy_list calls)|];
    intros H; injection H as <- <-; auto.
Qed.

End ShouldContinueMore.

(** X1.  On a state whose conversation is empty there is no last message:
    [_should_continue] raises the [IndexError] of [messages[-1]] and
    leaves the world as it was. *)
Theorem should_continue_empty_raises (self : RetailFootfallAnalyzer)
    (state : MessagesState) (w : world) :
  heap w !! messages state = Some [] ->
  _should_continue self state w
  = (Raise (IndexError "list index out of range"), w).
Proof.
  intros Hmsgs. unfold _should_continue.
  apply bind_Raise. rewrite (list_getitem_last_spec _ _ _ Hmsgs). reflexivity.
Qed.

Lemma should_continue_empty_raises_witness :
  _should_continue Samples.plain_analyzer (mkState 1%positive) (Samples.world_with [])
  = (Raise (IndexError "list index out of range"), Samples.world_with []).
Proof.
  apply (should_continue_empty_raises Samples.plain_analyzer (mkState 1%positive)
           (Samples.world_with [])).
  reflexivity.
Defined.

(** X2.  [_should_continue] only reads: whenever it returns, the world is
    the one it was called in, and the route is "tools" or END, nothing
    else. *)
Theorem should_continue_reads_only (self : RetailFootfallAnalyzer)
    (state : MessagesState) (w w' : world) (r : string) :
  _should_continue self state w = (Ok r, w') ->
  w' = w /\ (r = "tools" \/ r = END).
Proof. apply should_continue_range. Qed.

Lemma should_continue_reads_only_witness :
  Samples.world_with [HumanMessage "Footfall?"]
    = Samples.world_with [HumanMessage "Footfall?"]
  /\ (END = "tools" \/ END = END).
Proof.
  apply (should_continue_reads_only Samples.plain_analyzer (mkState 1%positive)
           (Samples.world_with [HumanMessage "Footfall?"])
           (Samples.world_with [HumanMessage "Footfall?"]) END).
  reflexivity.
Defined.

(* ===================================================================== *)
(** ** More on the model invoker                                          *)
(* ===================================================================== *)

Section CallModelMore.

Variable self : RetailFootfallAnalyzer.

Lemma last_snoc_message (xs : list Message) (x : Message) :
  last (xs ++ [x])%list = Some x.
Proof. apply last_snoc. Qed.

(** Successive calls on a conversation that has a System message: each
    call appends one message that is not a System message. *)
Lemma call_model_times_run (n : nat) :
  forall (state : MessagesState) (w : world) (msgs : list Message),
    heap w !! messages state = Some msgs ->
    has_system msgs = true ->
    exists state' w' tail,
      call_model_times self n state w = (Ok state', w') /\
      heap w' !! messages state' = Some (msgs ++ tail)%list /\
      List.length tail = n /\
      has_system tail = false /\
      grows w w'.
Proof.
  induction n as [|n IH]; intros state w msgs Hmsgs Hhas.
  - exists state, w, []. rewrite app_nil_r.
    repeat split; auto.
  - destruct (call_model_run self state w msgs Hmsgs)
      as (out & w1 & Hrun & _ & Hout & G1).
    assert (Hsent : sent_to_model self msgs = msgs).
    { unfold sent_to_model. now rewrite Hhas. }
    rewrite Hsent in Hout.
    destruct (IH (mkState out) w1 _ Hout) as (state' & w' & tail & Hn & Hres & Hlen & Htail & G2).
    { now rewrite has_system_app, Hhas. }
    exists state', w', (closing_message self msgs :: tail).
    split; [|split; [|split; [|split]]].
    + cbn [call_model_times]. now rewrite (bind_Ok _ _ _ _ _ Hrun).
    + rewrite Hres. now rewrite <- app_assoc.
    + simpl. now rewrite Hlen.
    + unfold has_system in *. simpl.
      now rewrite closing_message_not_system, Htail.
    + eapply grows_trans; eauto.
Qed.

End CallModelMore.

(** X3.  Routing on the state [_call_model] returns: the router never
    raises there, it goes to "tools" exactly when the model answered
    with at least one tool call, and to END when the model answered
    without one or when the model call raised. *)
Theorem call_model_then_route (self : RetailFootfallAnalyzer)
    (state : MessagesState) (w : world) (msgs : list Message) :
  heap w !! messages state = Some msgs ->
  exists state' w',
    _call_model self state w = (Ok state', w') /\
    _should_continue self state' w' =
      (Ok match llm self (sent_to_model self msgs) with
          | Ok response =>
              if truthy_list (reply_tool_calls response) then "tools" else END
          | Raise _ => END
          end, w').
Proof.
  intros Hmsgs.
  destruct (call_model_run self state w msgs Hmsgs)
    as (out & w' & Hrun & _ & Hout & _).
  exists (mkState out), w'. split; [exact Hrun|].
  rewrite (should_continue_last self (mkState out) w' _ _ Hout (last_snoc_message _ _)).
  unfold closing_message.
  now destruct (llm self (sent_to_model self msgs)).
Qed.

Lemma call_model_then_route_witness :
  let w := Samples.world_with [HumanMessage "Footfall in Marathahalli?"] in
  exists state' w',
    _call_model Samples.asking_analyzer (mkState 1%positive) w = (Ok state', w') /\
    _should_continue Samples.asking_analyzer state' w' = (Ok "tools", w').
Proof.
  intros w.
  apply (call_model_then_route Samples.asking_analyzer (mkState 1%positive) w
           [HumanMessage "Footfall in Marathahalli?"]).
  reflexivity.
Defined.

(** X4.  [_call_model] only appends.  The conversation it returns is the
    caller's messages, in their order, behind the system prompt if they
    had no System message (wherever in the conversation it stood) and
    followed by exactly one new message, which is not a System
    message. *)
Theorem call_model_appends_one (self : RetailFootfallAnalyzer)
    (state : MessagesState) (w : world) (msgs : list Message) :
  heap w !! messages state = Some msgs ->
  exists state' w' m,
    _call_model self state w = (Ok state', w') /\
    heap w' !! messages state' =
      Some ((if has_system msgs then []
             else [SystemMessage (system_prompt self)]) ++ msgs ++ [m])%list /\
    is_SystemMessage m = false.
Proof.
  intros Hmsgs.
  destruct (call_model_run self state w msgs Hmsgs)
    as (out & w' & Hrun & _ & Hout & _).
  exists (mkState out), w', (closing_message self (sent_to_model self msgs)).
  split; [exact Hrun|]. split; [|apply closing_message_not_system].
  cbn [messages]. rewrite Hout. unfold sent_to_model. now destruct (has_system msgs).
Qed.

(** A System message in second place is enough: nothing is injected and
    the first element stays the user's message. *)
Lemma call_model_appends_one_witness :
  let msgs := [HumanMessage "Footfall?"; SystemMessage "Answer in French."] in
  exists state' w' m,
    _call_model Samples.plain_analyzer (mkState 1%positive) (Samples.world_with msgs)
      = (Ok state', w') /\
    heap w' !! messages state' = Some (msgs ++ [m])%list /\
    is_SystemMessage m = false.
Proof.
  intros msgs.
  apply (call_model_appends_one Samples.plain_analyzer (mkState 1%positive)
           (Samples.world_with msgs) msgs).
  reflexivity.
Defined.

(** X5.  When the model answers, the message [_call_model] appends is the
    model's [AIMessage], with its content and its tool calls unchanged. *)
Theorem call_model_appends_answer (self : RetailFootfallAnalyzer)
    (state : MessagesState) (w : world) (msgs : list Message)
    (response : Completion) :
  heap w !! messages state = Some msgs ->
  llm self (sent_to_model self msgs) = Ok response ->
  exists state' w',
    _call_model self state w = (Ok state', w') /\
    heap w' !! messages state' =
      Some (sent_to_model self msgs
            ++ [AIMessage (reply_content response) (reply_tool_calls response)])%list.
Proof.
  intros Hmsgs Hllm.
  destruct (call_model_run self state w msgs Hmsgs)
    as (out & w' & Hrun & _ & Hout & _).
  exists (mkState out), w'. split; [exact Hrun|].
  cbn [messages]. rewrite Hout. unfold closing_message. now rewrite Hllm.
Qed.

Lemma call_model_appends_answer_witness :
  let w := Samples.world_with [HumanMessage "Footfall in Marathahalli?"] in
  exists state' w',
    _call_model Samples.asking_analyzer (mkState 1%positive) w = (Ok state', w') /\
    heap w' !! messages state' =
      Some [SystemMessage the_system_prompt;
            HumanMessage "Footfall in Marathahalli?";
            AIMessage EmptyString
              [mkToolCall "retail_footprint_api" "Marathahalli" "call_1"]].
Proof.
  intros w.
  apply (call_model_appends_answer Samples.asking_analyzer (mkState 1%positive) w
           [HumanMessage "Footfall in Marathahalli?"]
           (mkCompletion EmptyString
              [mkToolCall "retail_footprint_api" "Marathahalli" "call_1"])).
  - reflexivity.
  - reflexivity.
Defined.

(** X6.  However many times [_call_model] runs, each call on the state
    the one before returned, the conversation is what the first call
    sent to the model followed by one message per call, none of them a
    System message; so the number of System messages never grows after
    the first call, and the caller's first list is still what it was. *)
Theorem call_model_repeated (self : RetailFootfallAnalyzer) (n : nat)
    (state : MessagesState) (w : world) (msgs : list Message) :
  heap w !! messages state = Some msgs ->
  exists state' w' tail,
    call_model_times self (S n) state w = (Ok state', w') /\
    heap w' !! messages state' = Some (sent_to_model self msgs ++ tail)%list /\
    List.length tail = S n /\
    has_system tail = false /\
    count_system (sent_to_model self msgs ++ tail)%list
      = count_system (sent_to_model self msgs) /\
    heap w' !! messages state = Some msgs.
Proof.
  intros Hmsgs.
  destruct (call_model_run self state w msgs Hmsgs)
    as (out & w1 & Hrun & _ & Hout & G1).
  destruct (call_model_times_run self n (mkState out) w1 _ Hout)
    as (state' & w' & tail & Hn & Hres & Hlen & Htail & G2).
  { now rewrite has_system_app, has_system_sent. }
  exists state', w', (closing_message self (sent_to_model self msgs) :: tail).
  assert (Hnone : has_system
            (closing_message self (sent_to_model self msgs) :: tail) = false).
  { unfold has_system in *. simpl.
    now rewrite closing_message_not_system, Htail. }
  split; [|split; [|split; [|split; [|split]]]].
  - cbn [call_model_times]. now rewrite (bind_Ok _ _ _ _ _ Hrun).
  - rewrite Hres. now rewrite <- app_assoc.
  - simpl. now rewrite Hlen.
  - exact Hnone.
  - rewrite count_system_app, (count_system_none _ Hnone). lia.
  - eapply grows_lookup; [|exact Hmsgs]. eapply grows_trans; eauto.
Qed.

Lemma call_model_repeated_witness :
  let w := Samples.world_with [HumanMessage "Footfall in Pune?"] in
  exists state' w' tail,
    call_model_times Samples.offline_analyzer 3 (mkState 1%positive) w
      = (Ok state', w') /\
    heap w' !! messages state' =
      Some ([SystemMessage the_system_prompt; HumanMessage "Footfall in Pune?"]
            ++ tail)%list /\
    List.length tail = 3%nat /\
    has_system tail = false /\
    count_system ([SystemMessage the_system_prompt; HumanMessage "Footfall in Pune?"]
                  ++ tail)%list = 1%nat /\
    heap w' !! 1%positive = Some [HumanMessage "Footfall in Pune?"].
Proof.
  intros w.
  apply (call_model_repeated Samples.offline_analyzer 2 (mkState 1%positive) w
           [HumanMessage "Footfall in Pune?"]).
  reflexivity.
Defined.

(* ===================================================================== *)
(** ** More on the mock tool                                              *)
(* ===================================================================== *)

Section ToolMore.

Lemma lower_char_idem (c : ascii) : lower_char (lower_char c) = lower_char c.
Proof.
  destruct c as [[] [] [] [] [] [] [] []]; vm_compute; reflexivity.
Qed.

Lemma lower_idem (s : string) : lower (lower s) = lower s.
Proof.
  induction s as [|c s IH]; simpl; [reflexivity|].
  now rewrite lower_char_idem, IH.
Qed.

Lemma append_assoc_text (a b c : string) : (a +:+ b) +:+ c = a +:+ b +:+ c.
Proof.
  induction a as [|x a IH]; [reflexivity|].
  change (String x ((a +:+ b) +:+ c) = String x (a +:+ b +:+ c)).
  now rewrite IH.
Qed.

(** Text around a query keeps what the query contains. *)
Lemma ci_contains_embed (needle q pre post : string) :
  ci_contains needle q -> ci_contains needle (pre +:+ q +:+ post).
Proof.
  intros (a & mid & b & -> & Hmid).
  exists (pre +:+ a), mid, (b +:+ post). split; [|exact Hmid].
  now rewrite !append_assoc_text.
Qed.

Lemma ci_contains_dec (needle q : string) :
  lower needle = needle -> {ci_contains needle q} + {~ ci_contains needle q}.
Proof.
  intros Hn. destruct (str_in needle (lower q)) eqn:H.
  - left. now apply ci_contains_test.
  - right. rewrite (ci_contains_test needle q Hn). now rewrite H.
Qed.

End ToolMore.

(** X7.  For every query the answer of the mock tool is JSON text that
    reads back as an object.  The object is the error record, with the
    single key [error], exactly when the query names neither place; it
    has the four data keys exactly when the query names one; and its
    location is Marathahalli exactly when the query names Marathahalli,
    Pune exactly when it names Pune and not Marathahalli. *)
Theorem query_answer_cases (self : RetailFootfallAnalyzer) (query : string) :
  exists record,
    loads (_query_retail_footprint_api self query) = Some record /\
    (keys_of record = ["error"] <->
       ~ ci_contains "marathahalli" query /\ ~ ci_contains "pune" query) /\
    (keys_of record = data_keys <->
       ci_contains "marathahalli" query \/ ci_contains "pune" query) /\
    (get "location" record = Some (JString "Marathahalli, Bangalore") <->
       ci_contains "marathahalli" query) /\
    (get "location" record = Some (JString "Pune, Maharashtra") <->
       ~ ci_contains "marathahalli" query /\ ci_contains "pune" query).
Proof.
  destruct (ci_contains_dec "marathahalli" query eq_refl) as [Hm|Hm];
    [|destruct (ci_contains_dec "pune" query eq_refl) as [Hp|Hp]].
  - rewrite (query_first_branch self query Hm).
    exists marathahalli_data. split; [vm_compute; reflexivity|].
    repeat split; try discriminate; tauto.
  - rewrite (query_second_branch self query Hm Hp).
    exists pune_data. split; [vm_compute; reflexivity|].
    repeat split; try discriminate; tauto.
  - rewrite (query_last_branch self query Hm Hp).
    exists no_data. split; [vm_compute; reflexivity|].
    repeat split; try discriminate; tauto.
Qed.

(** X8.  Text before and after a query that names Marathahalli does not
    change the answer of the mock tool. *)
Theorem query_marathahalli_embedded (self : RetailFootfallAnalyzer)
    (query pre post : string) :
  ci_contains "marathahalli" query ->
  _query_retail_footprint_api self (pre +:+ query +:+ post)
  = _query_retail_footprint_api self query.
Proof.
  intros H.
  rewrite (query_first_branch self query H).
  apply query_first_branch. now apply ci_contains_embed.
Qed.

Lemma query_marathahalli_embedded_witness :
  _query_retail_footprint_api Samples.plain_analyzer
    ("Compare Pune with " +:+ "MARATHAHALLI" +:+ " on weekends")
  = _query_retail_footprint_api Samples.plain_analyzer "MARATHAHALLI".
Proof.
  apply (query_marathahalli_embedded Samples.plain_analyzer "MARATHAHALLI"
           "Compare Pune with " " on weekends").
  exists EmptyString, "MARATHAHALLI", EmptyString. split; reflexivity.
Defined.

(** X9.  The letter case of the query does not matter to the mock tool:
    a query and its lower-case form get the same answer. *)
Theorem query_ignores_case (self : RetailFootfallAnalyzer) (query : string) :
  _query_retail_footprint_api self (lower query)
  = _query_retail_footprint_api self query.
Proof.
  unfold _query_retail_footprint_api. now rewrite lower_idem.
Qed.

(* ===================================================================== *)
(** ** More on the top-level operation                                    *)
(* ===================================================================== *)

(** X10.  [analyze] hands the graph a new list that holds exactly the
    query as one [HumanMessage]; when the graph returns a conversation
    that is not empty, [analyze] returns the graph's output as it is. *)
Theorem analyze_hands_back_output (self : RetailFootfallAnalyzer) (query : string)
    (w : world) (invoke : CompiledGraph) :
  graph self = Some invoke ->
  exists display w0,
    heap w !! display = None /\
    heap w0 !! display = Some [HumanMessage query] /\
    grows w w0 /\
    forall (output : MessagesState) (w1 : world) (msgs : list Message) (m : Message),
      invoke (mkState display) w0 = (Ok output, w1) ->
      heap w1 !! messages output = Some msgs ->
      last msgs = Some m ->
      analyze self query w = (Ok (Output output), w1).
Proof.
  intros Hg.
  destruct (list_new_spec [HumanMessage query] w)
    as (display & w0 & Hnew & Hfresh & Hdisplay & G).
  exists display, w0. repeat split; try assumption; try apply G.
  intros output w1 msgs m Hrun Hmsgs Hlast.
  exact (analyze_returns_output self query w w0 w1 invoke display output msgs m
           Hg Hnew Hrun Hmsgs Hlast).
Qed.

Lemma analyze_hands_back_output_witness :
  exists display w0,
    heap Samples.empty_world !! display = None /\
    heap w0 !! display = Some [HumanMessage "Footfall in Pune?"] /\
    grows Samples.empty_world w0 /\
    forall (output : MessagesState) (w1 : world) (msgs : list Message) (m : Message),
      Samples.echo_graph (mkState display) w0 = (Ok output, w1) ->
      heap w1 !! messages output = Some msgs ->
      last msgs = Some m ->
      analyze Samples.echo_analyzer "Footfall in Pune?" Samples.empty_world
      = (Ok (Output output), w1).
Proof.
  apply (analyze_hands_back_output Samples.echo_analyzer "Footfall in Pune?"
           Samples.empty_world Samples.echo_graph).
  reflexivity.
Defined.

(** X11.  When the graph returns an empty conversation, the
    [IndexError] of [output['messages'][-1]] is caught as well:
    [analyze] returns the error record "list index out of range", not
    the graph's output. *)
Theorem analyze_empty_output (self : RetailFootfallAnalyzer) (query : string)
    (w w0 w1 : world) (invoke : CompiledGraph) (display : loc)
    (output : MessagesState) :
  graph self = Some invoke ->
  list_new [HumanMessage query] w = (Ok display, w0) ->
  invoke (mkState display) w0 = (Ok output, w1) ->
  heap w1 !! messages output = Some [] ->
  analyze self query w = (Ok (ErrorRecord "list index out of range"), w1).
Proof.
  intros Hg Hnew Hrun Hmsgs. unfold analyze, getattr_graph.
  rewrite (try_except_Raise _ _ w w1 (IndexError "list index out of range"));
    [reflexivity|].
  rewrite Hg. rewrite (bind_Ok _ _ w w invoke eq_refl).
  rewrite (bind_Ok _ _ _ _ _ Hnew), (bind_Ok _ _ _ _ _ Hrun).
  apply bind_Raise. now rewrite (list_getitem_last_spec _ _ _ Hmsgs).
Qed.

Lemma analyze_empty_output_witness :
  analyze Samples.void_analyzer "Footfall in Pune?" Samples.empty_world
  = (Ok (ErrorRecord "list index out of range"),
     World ∅ (<[ 2%positive := [] ]> {[ 1%positive := [HumanMessage "Footfall in Pune?"] ]})).
Proof.
  apply (analyze_empty_output Samples.void_analyzer "Footfall in Pune?"
           Samples.empty_world
           (World ∅ {[ 1%positive := [HumanMessage "Footfall in Pune?"] ]})
           (World ∅ (<[ 2%positive := [] ]>
                       {[ 1%positive := [HumanMessage "Footfall in Pune?"] ]}))
           Samples.void_graph 1%positive (mkState 2%positive)).
  - reflexivity.
  - reflexivity.
  - reflexivity.
  - reflexivity.
Defined.

(* ===================================================================== *)
(** ** More on construction                                               *)
(* ===================================================================== *)

Section InitMore.

Variable float : Type.
Variable ChatOpenAI : string -> float -> gmap string string -> outcome ChatModel.
Variable ToolNode : list Tool -> Node.
Variable compile : StateGraph -> CompiledGraph.

Lemma environ_after_not_passed (key : option string) (w : world) :
  ~ credential_passed key -> environ_after key w = environ w.
Proof.
  intros Hkey. rewrite <- truthy_str_passed in Hkey.
  apply not_true_is_false in Hkey.
  unfold environ_after. destruct key; [now rewrite Hkey | reflexivity].
Qed.

(** The world [__init__] leaves when the environment takes the key. *)
Lemma init_world (key : option string) (model_name : string)
    (temperature : float) (w : world) :
  key_has_nul key = false ->
  snd (__init__ float ChatOpenAI ToolNode compile key model_name temperature w)
  = World (environ_after key w) (heap w).
Proof.
  intros Hnul. rewrite init_run, Hnul. cbv zeta.
  case_bool_decide; [destruct (ChatOpenAI _ _ _)|]; reflexivity.
Qed.

End InitMore.

(** X12.  When no credential is passed, whether the argument is absent
    or is the empty string, [__init__] does the same in both cases and
    leaves the world exactly as it was, whether it returns or raises. *)
Theorem init_without_key (float : Type)
    (ChatOpenAI : string -> float -> gmap string string -> outcome ChatModel)
    (ToolNode : list Tool -> Node) (compile : StateGraph -> CompiledGraph)
    (key : option string) (model_name : string) (temperature : float)
    (w : world) :
  ~ credential_passed key ->
  __init__ float ChatOpenAI ToolNode compile key model_name temperature w
  = __init__ float ChatOpenAI ToolNode compile None model_name temperature w
  /\ snd (__init__ float ChatOpenAI ToolNode compile key model_name temperature w)
     = w.
Proof.
  intros Hkey. split.
  - rewrite !init_run. cbn [key_has_nul].
    rewrite (key_has_nul_not_passed key Hkey). cbv zeta.
    now rewrite (environ_after_not_passed key w Hkey).
  - rewrite init_world by exact (key_has_nul_not_passed key Hkey).
    rewrite (environ_after_not_passed key w Hkey). now destruct w.
Qed.

Lemma init_without_key_witness :
  let w := World {[ OPENAI_API_KEY := "sk-env" ]} ∅ in
  __init__ Z Samples.stub_ChatOpenAI Samples.stub_ToolNode Samples.stub_compile
    (Some EmptyString) "gpt-4o-mini" 0%Z w
  = __init__ Z Samples.stub_ChatOpenAI Samples.stub_ToolNode Samples.stub_compile
      None "gpt-4o-mini" 0%Z w
  /\ snd (__init__ Z Samples.stub_ChatOpenAI Samples.stub_ToolNode
            Samples.stub_compile (Some EmptyString) "gpt-4o-mini" 0%Z w)
     = w.
Proof.
  intros w.
  apply (init_without_key Z Samples.stub_ChatOpenAI Samples.stub_ToolNode
           Samples.stub_compile (Some EmptyString) "gpt-4o-mini" 0%Z w).
  intros (k & Hk & Hne). injection Hk as <-. now apply Hne.
Defined.



(** X16.  A key with a NUL character is refused by the environment:
    [__init__] raises [ValueError] with the text "embedded null byte"
    at the assignment, before the credential check and before any model
    is built, and leaves the world exactly as it was, whatever the
    environment already held. *)
Theorem init_rejects_nul_key (float : Type)
    (ChatOpenAI : string -> float -> gmap string string -> outcome ChatModel)
    (ToolNode : list Tool -> Node) (compile : StateGraph -> CompiledGraph)
    (k : string) (model_name : string) (temperature : float) (w : world) :
  has_nul k = true ->
  __init__ float ChatOpenAI ToolNode compile (Some k) model_name temperature w
  = (Raise (ValueError "embedded null byte"), w).
Proof.
  intros Hnul. rewrite init_run. cbn [key_has_nul]. now rewrite Hnul.
Qed.

(** The theorem on an environment that holds an older key: it stays. *)
Lemma init_rejects_nul_key_witness :
  let w := World {[ OPENAI_API_KEY := "sk-old" ]} ∅ in
  __init__ Z Samples.stub_ChatOpenAI Samples.stub_ToolNode Samples.stub_compile
    (Some Samples.nul_key) "gpt-4o-mini" 0%Z w
  = (Raise (ValueError "embedded null byte"), w).
Proof.
  intros w.
  apply (init_rejects_nul_key Z Samples.stub_ChatOpenAI Samples.stub_ToolNode
           Samples.stub_compile Samples.nul_key "gpt-4o-mini" 0%Z w).
  reflexivity.
Defined.

(* ===================================================================== *)
(** ** The graph                                                          *)
(* ===================================================================== *)

(** X14.  The graph [_build_graph] compiles is well formed: its nodes are
    "agent" and "tools", the run enters at "agent", every edge joins
    START and nodes, and every route the router [_should_continue] can
    return is END or one of the two nodes, so the run is never sent to a
    node that does not exist. *)
Theorem build_graph_wellformed (ToolNode : list Tool -> Node)
    (compile : StateGraph -> CompiledGraph) (self : RetailFootfallAnalyzer) :
  exists g,
    _build_graph ToolNode compile self = compile g /\
    graph_wellformed g /\
    node_names g = ["agent"; "tools"] /\
    edges g = [(START, "agent"); ("tools", "agent")] /\
    List.map fst (conditional_edges g) = ["agent"].
Proof.
  eexists. split; [reflexivity|]. split; [|repeat split].
  unfold graph_wellformed. cbn. split; [|split].
  - repeat constructor; cbn; set_solver.
  - intros a b [[= <- <-]|[[= <- <-]|[]]]; cbn; auto.
  - intros a router [[= <- <-]|[]]. split; [cbn; auto|].
    intros state w r w' Hrun.
    destruct (should_continue_range self state w w' r Hrun) as [_ [->| ->]];
      cbn; auto.
Qed.

(* ===================================================================== *)
(** ** The script entry point                                             *)
(* ===================================================================== *)

(** X15.  [main] never raises, whatever the libraries do.  When the
    environment has no key, or when the [ChatOpenAI] constructor raises,
    the exception of the constructor is caught and [main] returns with
    the world exactly as it was. *)
Theorem main_never_raises (float : Type) (zero : float)
    (ChatOpenAI : string -> float -> gmap string string -> outcome ChatModel)
    (ToolNode : list Tool -> Node) (compile : StateGraph -> CompiledGraph)
    (w : world) :
  (exists w', Script.main float zero ChatOpenAI ToolNode compile w = (Ok tt, w')) /\
  (~ credential_in_environ w ->
     Script.main float zero ChatOpenAI ToolNode compile w = (Ok tt, w)) /\
  (forall e, ChatOpenAI "gpt-4o-mini" zero (environ w) = Raise e ->
     Script.main float zero ChatOpenAI ToolNode compile w = (Ok tt, w)).
Proof.
  assert (Hnone : ~ credential_passed None).
  { intros (k & Hk & _). discriminate Hk. }
  assert (Hfail : forall e,
            __init__ float ChatOpenAI ToolNode compile None "gpt-4o-mini" zero w
            = (Raise e, w) ->
            Script.main float zero ChatOpenAI ToolNode compile w = (Ok tt, w)).
  { intros e Hinit. unfold Script.main.
    rewrite (try_except_Raise _ _ w w e); [reflexivity|].
    now apply bind_Raise. }
  split; [|split].
  - unfold Script.main.
    destruct (try_except_total
                (analyzer <- __init__ float ChatOpenAI ToolNode compile
                               None "gpt-4o-mini" zero ;;
                 result <- analyze analyzer Script.main_query ;;
                 match result with
                 | Output state =>
                     final_message <- list_getitem_last (messages state) ;;
                     ret tt
                 | ErrorRecord _ => ret tt
                 end)%py (fun _ => tt) w) as ([] & w' & H).
    exists w'. exact H.
  - intros Henv. apply (Hfail (ValueError key_not_found)).
    rewrite init_run. cbn [key_has_nul]. cbv zeta. cbn [environ_after].
    rewrite bool_decide_eq_false_2 by exact Henv. now destruct w.
  - intros e Hctor.
    assert (Hinit : exists e',
              __init__ float ChatOpenAI ToolNode compile None "gpt-4o-mini" zero w
              = (Raise e', w)).
    { rewrite init_run. cbn [key_has_nul]. cbv zeta. cbn [environ_after].
      rewrite Hctor.
      case_bool_decide; eexists; now destruct w. }
    destruct Hinit as [e' Hinit]. exact (Hfail e' Hinit).
Qed.

(** The script in a process without the key. *)
Lemma main_never_raises_witness :
  Script.main Z 0%Z Samples.stub_ChatOpenAI Samples.stub_ToolNode
    Samples.stub_compile Samples.empty_world
  = (Ok tt, Samples.empty_world).
Proof.
  apply (proj1 (proj2 (main_never_raises Z 0%Z Samples.stub_ChatOpenAI
                         Samples.stub_ToolNode Samples.stub_compile
                         Samples.empty_world))).
  intros [v Hv]. vm_compute in Hv. discriminate Hv.
Defined.
